(** * Art gallery: favorites store and gallery fetch controller

    A shallow embedding of
    - [src/art-gallery/src/context/FavoritesContext.tsx] (the favorites
      store and its localStorage persistence),
    - the favorite toggle of the artwork card and of the detail page,
    - the three versions of [src/art-gallery/src/pages/Gallery.tsx]
      (the paginated fetch controller),
    together with the properties the specification states about them.

    React state is modelled by explicit state passing: a state setter
    [setX (prev => f prev)] is the function [f] on the component state, an
    effect is a function run after the state change it depends on, and an
    asynchronous [fetchArtworks] is split at its [await] into the part that
    runs when the request is issued and the part that runs when it
    settles. *)

From Stdlib Require Import ZArith Lia Ascii String DecimalString DecimalZ DecimalPos.
From stdpp Require Import base numbers strings list gmap.

Local Open Scope string_scope.
Local Open Scope list_scope.
Local Open Scope Z_scope.

(** ** Data model ([types.ts]) *)

(** An artwork record.  Identifiers and page numbers are JavaScript
    numbers that hold integers; they are modelled by [Z].  Every field the
    API may leave out (or send as [null]) is an [option]. *)
Record Artwork := mkArtwork {
  id : Z;
  title : option string;
  image_id : option string;
  artist_title : option string;
  date_display : option string;
  medium_display : option string;
  dimensions : option string;
  artist_display : option string;
  place_of_origin : option string;
  description : option string;
  short_description : option string
}.

(** [pagination] of [ApiResponse<T>]. *)
Record Pagination := mkPagination {
  total : Z;
  limit : Z;
  offset : Z;
  total_pages : Z;
  current_page : Z
}.

(** [ApiResponse<Artwork>]. *)
Record ApiResponse := mkApiResponse {
  data : list Artwork;
  pagination : Pagination
}.

(** JavaScript truthiness of an optional string: [undefined], [null] and
    the empty string are falsy. *)
Definition truthy (o : option string) : bool :=
  match o with
  | Some s => negb (String.eqb s EmptyString)
  | None => false
  end.

(** The decimal text of an integer, as [`${n}`] and [JSON.stringify]
    write it. *)
Definition show_number (z : Z) : string := NilZero.string_of_int (Z.to_int z).

(** ** Favorites store ([FavoritesContext.tsx]) *)

Module Favorites.

(** [setFavorites(prev => [...prev, artwork])] *)
Definition addToFavorites (artwork : Artwork) (prev : list Artwork) : list Artwork :=
  prev ++ [artwork].

(** [setFavorites(prev => prev.filter(artwork => artwork.id !== artworkId))] *)
Definition removeFromFavorites (artworkId : Z) (prev : list Artwork) : list Artwork :=
  List.filter (fun artwork => negb (id artwork =? artworkId)) prev.

(** [favorites.some(artwork => artwork.id === artworkId)] *)
Definition isFavorite (artworkId : Z) (favorites : list Artwork) : bool :=
  existsb (fun artwork => id artwork =? artworkId) favorites.

(** The two mutations the provider exposes. *)
Inductive Op :=
| Add (artwork : Artwork)
| Remove (artworkId : Z).

Definition perform (op : Op) (favorites : list Artwork) : list Artwork :=
  match op with
  | Add artwork => addToFavorites artwork favorites
  | Remove artworkId => removeFromFavorites artworkId favorites
  end.

(** A sequence of mutations, first one first. *)
Fixpoint run (ops : list Op) (favorites : list Artwork) : list Artwork :=
  match ops with
  | [] => favorites
  | op :: rest => run rest (perform op favorites)
  end.

(** [handleFavoriteClick] of the artwork card and of the detail page:
    remove when the artwork is a favorite, add otherwise. *)
Definition handleFavoriteClick (artwork : Artwork) (favorites : list Artwork) : list Artwork :=
  if isFavorite (id artwork) favorites
  then removeFromFavorites (id artwork) favorites
  else addToFavorites artwork favorites.

(** The callers' discipline: every [addToFavorites(artwork)] of the
    sequence is issued in a state where [isFavorite(artwork.id)] is false. *)
Fixpoint guarded (ops : list Op) (favorites : list Artwork) : bool :=
  match ops with
  | [] => true
  | op :: rest =>
      match op with
      | Add artwork => negb (isFavorite (id artwork) favorites)
      | Remove _ => true
      end && guarded rest (perform op favorites)
  end.

(** The identifiers of a collection, in order. *)
Definition ids (favorites : list Artwork) : list Z := map id favorites.

End Favorites.

(** A record with only an identifier and a title, as in the
    specification's scenarios. *)
Definition artwork_of (i : Z) (t : string) : Artwork :=
  mkArtwork i (Some t) None None None None None None None None None.

Definition sunrise : Artwork := artwork_of 42 "Sunrise".

(** ** Persistence of the favorites ([FavoritesProvider]'s two effects)

    [JSON.stringify] and [JSON.parse] belong to the platform and are
    parameters here; [JSON_parse] returns [None] where [JSON.parse]
    throws.  [localStorage] is a map from keys to strings. *)

Section Persistence.
Variable JSON_stringify : list Artwork -> string.
Variable JSON_parse : string -> option (list Artwork).

Definition storageKey : string := "artGalleryFavorites".

Record Provider := mkProvider {
  favorites : list Artwork;
  localStorage : gmap string string
}.

(** The load effect.  [Some v] is the call [setFavorites(v)], [None]
    is no call: [getItem] gave [null] or the empty string. *)
Definition loadEffect (storage : gmap string string) : option (list Artwork) :=
  match storage !! storageKey with
  | Some savedFavorites =>
      if negb (String.eqb savedFavorites EmptyString) then
        match JSON_parse savedFavorites with
        | Some parsed => Some parsed
        | None => Some []
        end
      else None
  | None => None
  end.

(** The save effect:
    [localStorage.setItem('artGalleryFavorites', JSON.stringify(favorites))]. *)
Definition saveEffect (p : Provider) : Provider :=
  mkProvider (favorites p)
    (<[storageKey := JSON_stringify (favorites p)]> (localStorage p)).

(** Mount.  The first render has [favorites = []]; the load effect
    runs, then the save effect with the first render's [favorites];
    when the load effect called [setFavorites] the provider renders
    again with the loaded collection and the save effect runs again. *)
Definition mount (storage : gmap string string) : Provider :=
  let loaded := loadEffect storage in
  let first := saveEffect (mkProvider [] storage) in
  match loaded with
  | Some v => saveEffect (mkProvider v (localStorage first))
  | None => first
  end.

(** A mutation: [setFavorites] with the operation's updater, a render,
    and the save effect, whose dependency [favorites] is a new array. *)
Definition dispatch (op : Favorites.Op) (p : Provider) : Provider :=
  saveEffect (mkProvider (Favorites.perform op (favorites p)) (localStorage p)).

Fixpoint dispatch_all (ops : list Favorites.Op) (p : Provider) : Provider :=
  match ops with
  | [] => p
  | op :: rest => dispatch_all rest (dispatch op p)
  end.

(** The persisted string of the favorites, if any. *)
Definition persisted (p : Provider) : option string :=
  localStorage p !! storageKey.

(** A later session: the provider mounts again on the same storage. *)
Definition reload (p : Provider) : Provider := mount (localStorage p).

(** The stored string is the text of the in-memory collection. *)
Definition in_sync (p : Provider) : Prop :=
  persisted p = Some (JSON_stringify (favorites p)).
End Persistence.

(** ** A JSON text codec for arrays of artworks

    An instance of the platform codec: the compact JSON text of an
    [Artwork[]] whose absent fields are [null], and a parser of such
    texts. *)

Module JsonText.

Definition dquote : ascii := "034"%char.
Definition backslash : ascii := "092"%char.

(** The characters of an integer's text: the minus sign (code 45) and
    the digits (codes 48 to 57). *)
Definition is_number_char (c : ascii) : bool :=
  let n := N_of_ascii c in
  ((n =? 45) || ((48 <=? n) && (n <=? 57)))%N.

(** The longest prefix of number characters, and the rest. *)
Fixpoint span_number (s : string) : string * string :=
  match s with
  | String c s' =>
      if is_number_char c
      then (String c (fst (span_number s')), snd (span_number s'))
      else (EmptyString, s)
  | EmptyString => (EmptyString, EmptyString)
  end.

Definition parse_number (s : string) : option (Z * string) :=
  d ← NilZero.int_of_string (fst (span_number s));
  Some (Z.of_int d, snd (span_number s)).

(** The lower-case hexadecimal digit of a number below 16. *)
Definition hex_digit (n : N) : ascii :=
  ascii_of_N (if n <? 10 then 48 + n else 87 + n)%N.

(** The value of a hexadecimal digit of either case. *)
Definition hex_value (c : ascii) : option N :=
  let n := N_of_ascii c in
  if ((48 <=? n) && (n <=? 57))%N then Some (n - 48)%N
  else if ((97 <=? n) && (n <=? 102))%N then Some (n - 87)%N
  else if ((65 <=? n) && (n <=? 70))%N then Some (n - 55)%N
  else None.

(** One character inside a JSON string, as [JSON.stringify] quotes it. *)
Definition escape_char (c : ascii) : string :=
  match c with
  | "034" => String backslash (String dquote EmptyString)
  | "092" => String backslash (String backslash EmptyString)
  | "008" => String backslash "b"
  | "012" => String backslash "f"
  | "010" => String backslash "n"
  | "013" => String backslash "r"
  | "009" => String backslash "t"
  | _ =>
      if (N_of_ascii c <? 32)%N
      then String backslash
             (String "u" (String "0" (String "0"
                (String (hex_digit (N_of_ascii c / 16))
                   (String (hex_digit (N_of_ascii c mod 16)) EmptyString)))))
      else String c EmptyString
  end%char.

Fixpoint escape (s : string) : string :=
  match s with
  | EmptyString => EmptyString
  | String c s' => escape_char c +:+ escape s'
  end.

Definition print_string (s : string) : string :=
  String dquote (escape s +:+ String dquote EmptyString).

(** The character a two-character escape stands for. *)
Definition simple_escape (e : ascii) : option ascii :=
  match e with
  | "034" => Some "034" | "092" => Some "092" | "/" => Some "/"
  | "b" => Some "008" | "f" => Some "012" | "n" => Some "010"
  | "r" => Some "013" | "t" => Some "009"
  | _ => None
  end%char.

(** The character of [\uXXXX]; code units above 255 are outside the
    strings of this model. *)
Definition unicode_escape (h1 h2 h3 h4 : ascii) : option ascii :=
  a ← hex_value h1; b ← hex_value h2; c ← hex_value h3; d ← hex_value h4;
  let code := (((a * 16 + b) * 16 + c) * 16 + d)%N in
  if (code <? 256)%N then Some (ascii_of_N code) else None.

(** The characters of a JSON string after its opening quote, up to the
    closing quote, and the text after it. *)
Fixpoint parse_chars (s : string) : option (string * string) :=
  match s with
  | EmptyString => None
  | String c rest =>
      if Ascii.eqb c dquote then Some (EmptyString, rest)
      else if Ascii.eqb c backslash then
        match rest with
        | String e rest1 =>
            match simple_escape e with
            | Some c' =>
                r ← parse_chars rest1; Some (String c' (fst r), snd r)
            | None =>
                if Ascii.eqb e "u" then
                  match rest1 with
                  | String h1 (String h2 (String h3 (String h4 rest2))) =>
                      c' ← unicode_escape h1 h2 h3 h4;
                      r ← parse_chars rest2; Some (String c' (fst r), snd r)
                  | _ => None
                  end
                else None
            end
        | EmptyString => None
        end
      else if (N_of_ascii c <? 32)%N then None
      else r ← parse_chars rest; Some (String c (fst r), snd r)
  end.

(** An optional string: [null] or a JSON string. *)
Definition print_opt (o : option string) : string :=
  match o with
  | Some s => print_string s
  | None => "null"
  end.

Definition parse_opt (s : string) : option (option string * string) :=
  match s with
  | String "n" (String "u" (String "l" (String "l" rest))) => Some (None, rest)
  | String c rest =>
      if Ascii.eqb c dquote
      then r ← parse_chars rest; Some (Some (fst r), snd r)
      else None
  | EmptyString => None
  end.

(** [expect lit s] removes the prefix [lit] of [s]. *)
Fixpoint expect (lit s : string) : option string :=
  match lit with
  | EmptyString => Some s
  | String c lit' =>
      match s with
      | String d s' => if Ascii.eqb c d then expect lit' s' else None
      | EmptyString => None
      end
  end.

(** ["key":] *)
Definition key (k : string) : string :=
  String dquote (k +:+ String dquote ":").

Definition print_field (k : string) (v : option string) : string :=
  "," +:+ key k +:+ print_opt v.

Definition parse_field (k s : string) : option (option string * string) :=
  s1 ← expect ("," +:+ key k) s; parse_opt s1.

Definition print_artwork (a : Artwork) : string :=
  "{" +:+ key "id" +:+ show_number (id a)
  +:+ print_field "title" (title a)
  +:+ print_field "image_id" (image_id a)
  +:+ print_field "artist_title" (artist_title a)
  +:+ print_field "date_display" (date_display a)
  +:+ print_field "medium_display" (medium_display a)
  +:+ print_field "dimensions" (dimensions a)
  +:+ print_field "artist_display" (artist_display a)
  +:+ print_field "place_of_origin" (place_of_origin a)
  +:+ print_field "description" (description a)
  +:+ print_field "short_description" (short_description a)
  +:+ "}".

Definition parse_artwork (s : string) : option (Artwork * string) :=
  s ← expect ("{" +:+ key "id") s;
  i ← parse_number s;
  f1 ← parse_field "title" (snd i);
  f2 ← parse_field "image_id" (snd f1);
  f3 ← parse_field "artist_title" (snd f2);
  f4 ← parse_field "date_display" (snd f3);
  f5 ← parse_field "medium_display" (snd f4);
  f6 ← parse_field "dimensions" (snd f5);
  f7 ← parse_field "artist_display" (snd f6);
  f8 ← parse_field "place_of_origin" (snd f7);
  f9 ← parse_field "description" (snd f8);
  f10 ← parse_field "short_description" (snd f9);
  s ← expect "}" (snd f10);
  Some (mkArtwork (fst i) (fst f1) (fst f2) (fst f3) (fst f4) (fst f5)
          (fst f6) (fst f7) (fst f8) (fst f9) (fst f10), s).

(** The elements of a non-empty array, separated by commas. *)
Fixpoint print_elements (a : Artwork) (l : list Artwork) : string :=
  match l with
  | [] => print_artwork a
  | b :: l' => print_artwork a +:+ "," +:+ print_elements b l'
  end.

Definition stringify (l : list Artwork) : string :=
  match l with
  | [] => "[]"
  | a :: l' => "[" +:+ print_elements a l' +:+ "]"
  end.

(** The elements and the closing bracket; every element uses up one unit
    of fuel. *)
Fixpoint parse_elements (fuel : nat) (s : string) : option (list Artwork * string) :=
  match fuel with
  | O => None
  | S fuel' =>
      a ← parse_artwork s;
      match snd a with
      | String c rest =>
          if Ascii.eqb c ","
          then r ← parse_elements fuel' rest; Some (fst a :: fst r, snd r)
          else if Ascii.eqb c "]" then Some ([fst a], rest)
          else None
      | EmptyString => None
      end
  end.

Definition parse (s : string) : option (list Artwork) :=
  match s with
  | String "[" (String "]" EmptyString) => Some []
  | String "[" rest =>
      match parse_elements (String.length rest) rest with
      | Some (l, EmptyString) => Some l
      | _ => None
      end
  | _ => None
  end.

End JsonText.

(** ** Network outcomes *)

(** What a [catch] block receives: an [Error] object with its message, or
    some other thrown value. *)
Inductive Thrown :=
| ErrorObject (message : string)
| OtherValue.

(** The ways a request fails: the promise of [fetch], [axios.get] or
    [response.json()] rejects, or the response has a non-success status. *)
Inductive Failure :=
| Rejected (err : Thrown)
| NotOk (status : Z) (statusText : string).

(** What an awaited request settles with. *)
Inductive FetchResult :=
| Success (response : ApiResponse)
| Failed (f : Failure).

(** [data.pagination.current_page < data.pagination.total_pages] *)
Definition morePages (response : ApiResponse) : bool :=
  current_page (pagination response) <? total_pages (pagination response).

(** [data.filter((artwork: Artwork) => artwork.image_id)] *)
Definition withImages (records : list Artwork) : list Artwork :=
  List.filter (fun artwork => truthy (image_id artwork)) records.

(** Every entry has an image reference. *)
Definition pictured_only (l : list Artwork) : Prop :=
  Forall (fun artwork => truthy (image_id artwork) = true) l.

(** ** The event loop

    One UI thread: user events run a handler to completion, which may
    issue requests; a request in flight settles later, in any order, and
    then the rest of its [fetchArtworks] call runs.  A handler whose
    control is not rendered or is disabled leaves the state alone and
    issues nothing. *)

Section EventLoop.
Context {State Request UIEvent : Type}.
Variable handle : UIEvent -> State -> State * list Request.
Variable settle : Request -> FetchResult -> State -> State.

Record World := mkWorld {
  ui : State;
  inflight : list Request
}.

Inductive Event :=
| User (e : UIEvent)
| Settles (n : nat) (result : FetchResult).

(** The requests an event issues in a world. *)
Definition issued (ev : Event) (w : World) : list Request :=
  match ev with
  | User e => snd (handle e (ui w))
  | Settles _ _ => []
  end.

Definition step (ev : Event) (w : World) : World :=
  match ev with
  | User e =>
      mkWorld (fst (handle e (ui w))) (inflight w ++ snd (handle e (ui w)))
  | Settles n result =>
      match inflight w !! n with
      | Some request =>
          mkWorld (settle request result (ui w)) (delete n (inflight w))
      | None => w
      end
  end.

Fixpoint run (events : list Event) (w : World) : World :=
  match events with
  | [] => w
  | ev :: rest => run rest (step ev w)
  end.
End EventLoop.

Arguments World : clear implicits.
Arguments Event : clear implicits.

(** ** Gallery, first version (lines 1-339 of [Gallery.tsx]) *)

Module GalleryV1.

Record State := mkState {
  artworks : list Artwork;
  loading : bool;
  error : string;
  searchTerm : string;
  page : Z;
  hasMore : bool
}.

(** The [useState] initial values. *)
Definition initial : State := mkState [] false EmptyString EmptyString 1 true.

Definition setArtworks (f : list Artwork -> list Artwork) (s : State) : State :=
  mkState (f (artworks s)) (loading s) (error s) (searchTerm s) (page s) (hasMore s).
Definition setLoading (b : bool) (s : State) : State :=
  mkState (artworks s) b (error s) (searchTerm s) (page s) (hasMore s).
Definition setError (e : string) (s : State) : State :=
  mkState (artworks s) (loading s) e (searchTerm s) (page s) (hasMore s).
Definition setSearchTerm (t : string) (s : State) : State :=
  mkState (artworks s) (loading s) (error s) t (page s) (hasMore s).
Definition setPage (n : Z) (s : State) : State :=
  mkState (artworks s) (loading s) (error s) (searchTerm s) n (hasMore s).
Definition setHasMore (b : bool) (s : State) : State :=
  mkState (artworks s) (loading s) (error s) (searchTerm s) (page s) b.

(** The arguments of one [fetchArtworks(query, pageNum, append)] call. *)
Record Request := mkRequest {
  query : string;
  pageNum : Z;
  append : bool
}.

(** [fetchArtworks] up to its first [await]:
    [setLoading(true); setError('')] and the request goes out. *)
Definition fetchArtworks_begin (s : State) : State :=
  setError EmptyString (setLoading true s).

(** What the [try] block throws. *)
Definition thrown (f : Failure) : Thrown :=
  match f with
  | Rejected err => err
  | NotOk status statusText =>
      ErrorObject ("API request failed: " +:+ show_number status +:+ " " +:+ statusText)
  end.

(** [err instanceof Error ? err.message : 'Failed to fetch artworks'] *)
Definition errorMessage (err : Thrown) : string :=
  match err with
  | ErrorObject message => message
  | OtherValue => "Failed to fetch artworks"
  end.

(** [fetchArtworks] after the [await]: the rest of the [try] block or the
    [catch] block, then [finally]. *)
Definition fetchArtworks_settle (r : Request) (result : FetchResult) (s : State) : State :=
  setLoading false
    match result with
    | Success response =>
        setHasMore (morePages response)
          (if append r
           then setArtworks (fun prev => prev ++ data response) s
           else setArtworks (fun _ => data response) s)
    | Failed f => setError (errorMessage (thrown f)) s
    end.

(** [handleLoadMore] *)
Definition handleLoadMore (s : State) : State * list Request :=
  if hasMore s && negb (loading s) then
    let nextPage := page s + 1 in
    (fetchArtworks_begin (setPage nextPage s), [mkRequest (searchTerm s) nextPage true])
  else (s, []).

(** The effect on [searchTerm]; both of its branches set the page to 1 and
    fetch page 1 of the current term without appending. *)
Definition searchEffect (s : State) : State * list Request :=
  (fetchArtworks_begin (setPage 1 s), [mkRequest (searchTerm s) 1 false]).

(** [handleSearchChange]: [setSearchTerm(e.target.value)]; the effect runs
    when the term changed. *)
Definition handleSearchChange (value : string) (s : State) : State * list Request :=
  if String.eqb value (searchTerm s) then (s, [])
  else searchEffect (setSearchTerm value s).

(** The Try Again button: [fetchArtworks(searchTerm, 1, false)]. *)
Definition retry (s : State) : State * list Request :=
  (fetchArtworks_begin s, [mkRequest (searchTerm s) 1 false]).

(** The main content area of the render. *)
Inductive View := ErrorView | LoadingView | EmptyView | GridView.

Definition view (s : State) : View :=
  if negb (String.eqb (error s) EmptyString) then ErrorView
  else if loading s && (length (artworks s) =? 0)%nat then LoadingView
  else if (length (artworks s) =? 0)%nat then EmptyView
  else GridView.

(** The Load More button is rendered in the grid when [hasMore], with
    [disabled={loading}]. *)
Definition loadMoreRendered (s : State) : bool :=
  match view s with GridView => hasMore s | _ => false end.
Definition loadMoreDisabled (s : State) : bool := loading s.

Inductive UIEvent :=
| TypeSearch (value : string)
| ClickLoadMore
| ClickTryAgain.

Definition handle (e : UIEvent) (s : State) : State * list Request :=
  match e with
  | TypeSearch value => handleSearchChange value s
  | ClickLoadMore =>
      if loadMoreRendered s && negb (loadMoreDisabled s) then handleLoadMore s else (s, [])
  | ClickTryAgain =>
      match view s with ErrorView => retry s | _ => (s, []) end
  end.

(** Mount: the initial-load effect calls [fetchArtworks()] and the search
    effect runs once as well. *)
Definition mounted : World State Request :=
  let s1 := fetchArtworks_begin initial in
  let '(s2, reqs) := searchEffect s1 in
  mkWorld s2 (mkRequest EmptyString 1 false :: reqs).

End GalleryV1.

(** ** Gallery, second version (lines 340-562 of [Gallery.tsx]) *)

Module GalleryV2.

Record State := mkState {
  artworks : list Artwork;
  loading : bool;
  searchTerm : string;
  page : Z;
  hasMore : bool
}.

Definition initial : State := mkState [] true EmptyString 1 true.

Definition setArtworks (f : list Artwork -> list Artwork) (s : State) : State :=
  mkState (f (artworks s)) (loading s) (searchTerm s) (page s) (hasMore s).
Definition setLoading (b : bool) (s : State) : State :=
  mkState (artworks s) b (searchTerm s) (page s) (hasMore s).
Definition setSearchTerm (t : string) (s : State) : State :=
  mkState (artworks s) (loading s) t (page s) (hasMore s).
Definition setPage (n : Z) (s : State) : State :=
  mkState (artworks s) (loading s) (searchTerm s) n (hasMore s).
Definition setHasMore (b : bool) (s : State) : State :=
  mkState (artworks s) (loading s) (searchTerm s) (page s) b.

(** The arguments of one [fetchArtworks(pageNum, search)] call. *)
Record Request := mkRequest {
  pageNum : Z;
  search : string
}.

(** [fetchArtworks] up to the [await]: [setLoading(true)]. *)
Definition fetchArtworks_begin (s : State) : State := setLoading true s.

(** [fetchArtworks] after the [await].  The [catch] block only logs. *)
Definition fetchArtworks_settle (r : Request) (result : FetchResult) (s : State) : State :=
  setLoading false
    match result with
    | Success response =>
        let newArtworks := withImages (data response) in
        setHasMore (morePages response)
          (if pageNum r =? 1
           then setArtworks (fun _ => newArtworks) s
           else setArtworks (fun prev => prev ++ newArtworks) s)
    | Failed _ => s
    end.

(** [loadMore] *)
Definition loadMore (s : State) : State * list Request :=
  let nextPage := page s + 1 in
  (fetchArtworks_begin (setPage nextPage s), [mkRequest nextPage (searchTerm s)]).

(** The effect on [searchTerm], and [handleSearch]:
    [fetchArtworks(1, searchTerm); setPage(1)]. *)
Definition searchEffect (s : State) : State * list Request :=
  (setPage 1 (fetchArtworks_begin s), [mkRequest 1 (searchTerm s)]).

Definition handleSearch (s : State) : State * list Request := searchEffect s.

(** The input's [onChange]: [setSearchTerm(e.target.value)], then the
    effect when the term changed. *)
Definition typeSearch (value : string) (s : State) : State * list Request :=
  if String.eqb value (searchTerm s) then (s, [])
  else searchEffect (setSearchTerm value s).

(** [refreshGallery]: [setSearchTerm(''); setPage(1); fetchArtworks(1, '')],
    then the effect when the term was not empty. *)
Definition refreshGallery (s : State) : State * list Request :=
  let changed := negb (String.eqb (searchTerm s) EmptyString) in
  let s1 := fetchArtworks_begin (setPage 1 (setSearchTerm EmptyString s)) in
  if changed
  then (fst (searchEffect s1), mkRequest 1 EmptyString :: snd (searchEffect s1))
  else (s1, [mkRequest 1 EmptyString]).

(** The Load More button is rendered when [artworks.length > 0] and
    [hasMore], with [disabled={loading}]. *)
Definition loadMoreRendered (s : State) : bool :=
  (0 <? length (artworks s))%nat && hasMore s.
Definition loadMoreDisabled (s : State) : bool := loading s.

Inductive UIEvent :=
| TypeSearch (value : string)
| SubmitSearch
| ClickRefresh
| ClickLoadMore.

Definition handle (e : UIEvent) (s : State) : State * list Request :=
  match e with
  | TypeSearch value => typeSearch value s
  | SubmitSearch => handleSearch s
  | ClickRefresh => refreshGallery s
  | ClickLoadMore =>
      if loadMoreRendered s && negb (loadMoreDisabled s) then loadMore s else (s, [])
  end.

(** Mount: the effect on [searchTerm] runs once. *)
Definition mounted : World State Request :=
  mkWorld (fst (searchEffect initial)) (snd (searchEffect initial)).

End GalleryV2.

(** ** Gallery, third version (lines 563-799 of [Gallery.tsx]) *)

Module GalleryV3.

Record State := mkState {
  artworks : list Artwork;
  loading : bool;
  searchTerm : string;
  page : Z;
  hasMore : bool
}.

Definition initial : State := mkState [] true EmptyString 1 true.

Definition setArtworks (f : list Artwork -> list Artwork) (s : State) : State :=
  mkState (f (artworks s)) (loading s) (searchTerm s) (page s) (hasMore s).
Definition setLoading (b : bool) (s : State) : State :=
  mkState (artworks s) b (searchTerm s) (page s) (hasMore s).
Definition setSearchTerm (t : string) (s : State) : State :=
  mkState (artworks s) (loading s) t (page s) (hasMore s).
Definition setPage (n : Z) (s : State) : State :=
  mkState (artworks s) (loading s) (searchTerm s) n (hasMore s).
Definition setHasMore (b : bool) (s : State) : State :=
  mkState (artworks s) (loading s) (searchTerm s) (page s) b.

Record Request := mkRequest {
  pageNum : Z;
  search : string
}.

Definition fetchArtworks_begin (s : State) : State := setLoading true s.

(** [fetchArtworks] after the [await].  The [catch] block empties the
    list when the failed request was for page 1. *)
Definition fetchArtworks_settle (r : Request) (result : FetchResult) (s : State) : State :=
  setLoading false
    match result with
    | Success response =>
        let newArtworks := withImages (data response) in
        setHasMore (morePages response)
          (if pageNum r =? 1
           then setArtworks (fun _ => newArtworks) s
           else setArtworks (fun prev => prev ++ newArtworks) s)
    | Failed _ =>
        if pageNum r =? 1 then setArtworks (fun _ => []) s else s
    end.

(** [loadMore] *)
Definition loadMore (s : State) : State * list Request :=
  let nextPage := page s + 1 in
  (fetchArtworks_begin (setPage nextPage s), [mkRequest nextPage (searchTerm s)]).

(** The effect on [searchTerm], and [handleSearch]. *)
Definition searchEffect (s : State) : State * list Request :=
  (setPage 1 (fetchArtworks_begin s), [mkRequest 1 (searchTerm s)]).

Definition handleSearch (s : State) : State * list Request := searchEffect s.

Definition typeSearch (value : string) (s : State) : State * list Request :=
  if String.eqb value (searchTerm s) then (s, [])
  else searchEffect (setSearchTerm value s).

(** The Retry Loading Artworks button: [fetchArtworks(1, '')], rendered
    when [!loading && artworks.length === 0]. *)
Definition retryLoading (s : State) : State * list Request :=
  (fetchArtworks_begin s, [mkRequest 1 EmptyString]).
Definition retryRendered (s : State) : bool :=
  negb (loading s) && (length (artworks s) =? 0)%nat.

Definition loadMoreRendered (s : State) : bool :=
  (0 <? length (artworks s))%nat && hasMore s.
Definition loadMoreDisabled (s : State) : bool := loading s.

Inductive UIEvent :=
| TypeSearch (value : string)
| SubmitSearch
| ClickRetry
| ClickLoadMore.

Definition handle (e : UIEvent) (s : State) : State * list Request :=
  match e with
  | TypeSearch value => typeSearch value s
  | SubmitSearch => handleSearch s
  | ClickRetry => if retryRendered s then retryLoading s else (s, [])
  | ClickLoadMore =>
      if loadMoreRendered s && negb (loadMoreDisabled s) then loadMore s else (s, [])
  end.

(** Mount: the initial-load effect calls [fetchArtworks(1, '')] and the
    search effect runs once as well. *)
Definition mounted : World State Request :=
  let s1 := fetchArtworks_begin initial in
  mkWorld (fst (searchEffect s1)) (mkRequest 1 EmptyString :: snd (searchEffect s1)).

End GalleryV3.

(** ** What the other components read from the store *)

Module FavoritesView.

(** A sequence of heart clicks, one artwork after the other. *)
Definition clicks (clicked : list Artwork) (favorites : list Artwork) : list Artwork :=
  fold_left (fun favs artwork => Favorites.handleFavoriteClick artwork favs)
    clicked favorites.

(** The counter badge of the navigation bar:
    [favorites.length > 0 && <span>{favorites.length}</span>]. *)
Definition badge (favorites : list Artwork) : option nat :=
  if (0 <? length favorites)%nat then Some (length favorites) else None.

End FavoritesView.

(** ** The detail page ([ArtworkDetail.tsx]) *)

Module ArtworkDetailPage.

(** [ArtworkDetail extends Artwork] *)
Record ArtworkDetail := mkArtworkDetail {
  base : Artwork;
  artist_birth_date : option Z;
  artist_death_date : option Z;
  artist_nationality : option string;
  category_titles : option (list string);
  style_title : option string;
  technique_title : option string;
  publication_history : option string;
  exhibition_history : option string
}.

(** The component state, and the toasts it has raised. *)
Record State := mkState {
  artwork : option ArtworkDetail;
  loading : bool;
  toasts : list string
}.

Definition initial : State := mkState None true [].

Definition setArtwork (a : option ArtworkDetail) (s : State) : State :=
  mkState a (loading s) (toasts s).
Definition setLoading (b : bool) (s : State) : State :=
  mkState (artwork s) b (toasts s).
Definition toast (message : string) (s : State) : State :=
  mkState (artwork s) (loading s) (toasts s ++ [message]).

(** What [axios.get] of the detail endpoint settles with. *)
Inductive DetailResult :=
| Loaded (a : ArtworkDetail)
| LoadFailed (f : Failure).

(** The effect on the route's [id]: [if (id) fetchArtworkDetail()], and
    [fetchArtworkDetail] up to its [await].  The request is the
    identifier in the URL. *)
Definition idEffect (routeId : option string) (s : State) : State * list string :=
  match routeId with
  | Some i => if truthy routeId then (setLoading true s, [i]) else (s, [])
  | None => (s, [])
  end.

(** [fetchArtworkDetail] after the [await]. *)
Definition fetchArtworkDetail_settle (result : DetailResult) (s : State) : State :=
  setLoading false
    match result with
    | Loaded a => setArtwork (Some a) s
    | LoadFailed _ => toast "Failed to load artwork details" s
    end.

(** The three returns of the render. *)
Inductive View :=
| Spinner
| NotFound
| Detail (a : ArtworkDetail).

Definition view (s : State) : View :=
  if loading s then Spinner
  else match artwork s with
       | None => NotFound
       | Some a => Detail a
       end.

(** [handleFavoriteClick]: nothing without an artwork; otherwise the
    toggle, with its toast.  The store keeps the [Artwork] part of the
    record. *)
Definition handleFavoriteClick (s : State) (favorites : list Artwork)
  : list Artwork * State :=
  match artwork s with
  | None => (favorites, s)
  | Some a =>
      if Favorites.isFavorite (id (base a)) favorites
      then (Favorites.removeFromFavorites (id (base a)) favorites,
            toast "Removed from favorites" s)
      else (Favorites.addToFavorites (base a) favorites,
            toast "Added to favorites!" s)
  end.



End ArtworkDetailPage.

(** ** Event sequences of the gallery *)

(** Load More clicked and its request settling with success, once per
    response, with nothing else in flight. *)
Definition loadMoreCycles {UIEvent : Type} (click : UIEvent)
    (responses : list ApiResponse) : list (Event UIEvent) :=
  flat_map (fun response => [User click; Settles 0 (Success response)]) responses.

(** Two user events, each issuing one request on top of [n] requests in
    flight, and the second request settling before the first. *)
Definition overtaking {UIEvent : Type} (n : nat) (e1 e2 : UIEvent)
    (result1 result2 : FetchResult) : list (Event UIEvent) :=
  [User e1; User e2; Settles (S n) result2; Settles n result1].

(** ** Concrete data for the scenarios *)

(** A record with an image reference. *)
Definition pictured (i : Z) : Artwork :=
  mkArtwork i (Some "Untitled") (Some "img") None None None None None None None None.

(** Twelve records with images, identifiers [first .. first + 11]. *)
Definition twelve (first : Z) : list Artwork :=
  map (fun k => pictured (first + Z.of_nat k)) (seq 0 12).

(** Page [p] of 3 of a search with 36 results. *)
Definition page_of_three (p : Z) (records : list Artwork) : ApiResponse :=
  mkApiResponse records (mkPagination 36 12 (12 * (p - 1)) 3 p).

(** Twelve records of which the last has no image reference. *)
Definition eleven_pictured : list Artwork :=
  map (fun k => pictured (1 + Z.of_nat k)) (seq 0 11) ++ [artwork_of 12 "No image"].

Definition network_down : Failure := Rejected (ErrorObject "Failed to fetch").

(** The scenario of the specification in the first version: the two
    requests of the mount settle, the user types a term, page 1 of 3
    arrives with twelve records. *)
Definition monet_page1_v1 : list (Event GalleryV1.UIEvent) :=
  [Settles 0 (Success (page_of_three 1 (twelve 100)));
   Settles 0 (Success (page_of_three 1 (twelve 100)));
   User (GalleryV1.TypeSearch "monet");
   Settles 0 (Success (page_of_three 1 (twelve 1)))].

(** Then Load More is clicked and page 2 arrives with twelve records. *)
Definition monet_page2_v1 : list (Event GalleryV1.UIEvent) :=
  monet_page1_v1
  ++ [User GalleryV1.ClickLoadMore;
      Settles 0 (Success (page_of_three 2 (twelve 13)))].

(** The same scenario in the second version, whose mount issues one
    request. *)
Definition monet_page1_v2 : list (Event GalleryV2.UIEvent) :=
  [Settles 0 (Success (page_of_three 1 (twelve 100)));
   User (GalleryV2.TypeSearch "monet");
   Settles 0 (Success (page_of_three 1 (twelve 1)))].

Definition monet_page2_v2 : list (Event GalleryV2.UIEvent) :=
  monet_page1_v2
  ++ [User GalleryV2.ClickLoadMore;
      Settles 0 (Success (page_of_three 2 (twelve 13)))].

(** In the first version: after page 1, a Load More whose request fails,
    then Try Again, whose request for page 1 succeeds. *)
Definition failed_load_more_then_retry_v1 : list (Event GalleryV1.UIEvent) :=
  monet_page1_v1
  ++ [User GalleryV1.ClickLoadMore;
      Settles 0 (Failed network_down);
      User GalleryV1.ClickTryAgain;
      Settles 0 (Success (page_of_three 1 (twelve 1)))].

(** Just after the mount of the first version, the first of its two
    requests has settled with a page that has successors. *)
Definition first_mount_request_settled : World GalleryV1.State GalleryV1.Request :=
  run GalleryV1.handle GalleryV1.fetchArtworks_settle
    [Settles 0 (Success (page_of_three 1 (twelve 1)))] GalleryV1.mounted.

(** A second- and a third-version state on the last page, with a request
    in progress. *)
Definition last_page_loading_v2 : GalleryV2.State :=
  GalleryV2.mkState (twelve 1) true EmptyString 3 false.
Definition last_page_loading_v3 : GalleryV3.State :=
  GalleryV3.mkState (twelve 1) true EmptyString 3 false.

(** A third-version gallery showing one artwork. *)
Definition showing_sunrise : GalleryV3.State :=
  GalleryV3.mkState [sunrise] true EmptyString 1 true.

(** A first-version state after page 1 of a search with more pages. *)
Definition browsing_v1 : GalleryV1.State :=
  GalleryV1.mkState (twelve 1) false EmptyString "monet" 1 true.
Definition browsing_v2 : GalleryV2.State :=
  GalleryV2.mkState (twelve 1) false "monet" 1 true.

(** A first-version gallery showing page 1 under a failure message, and
    a third-version gallery on a search term. *)
Definition failed_v1 : GalleryV1.State :=
  GalleryV1.mkState (twelve 1) false "API request failed: 500 " "monet" 2 true.
Definition searching_v3 : GalleryV3.State :=
  GalleryV3.mkState (twelve 1) true "monet" 1 true.

(** * Properties of the favorites store *)

Module FavoritesFacts.
Import Favorites.

Lemma isFavorite_true artworkId favorites :
  isFavorite artworkId favorites = true <-> artworkId ∈ ids favorites.
Proof.
  unfold isFavorite, ids. rewrite existsb_exists, list_elem_of_fmap. split.
  - intros (a & Hin & Heq). exists a. apply Z.eqb_eq in Heq.
    split; [done | by apply list_elem_of_In].
  - intros (a & -> & Hin). exists a.
    split; [by apply list_elem_of_In | apply Z.eqb_refl].
Qed.

Lemma isFavorite_false artworkId favorites :
  isFavorite artworkId favorites = false <-> artworkId ∉ ids favorites.
Proof.
  rewrite <- isFavorite_true. destruct (isFavorite artworkId favorites); naive_solver.
Qed.

Lemma ids_add artwork favorites :
  ids (addToFavorites artwork favorites) = ids favorites ++ [id artwork].
Proof. unfold ids, addToFavorites. by rewrite map_app. Qed.

Lemma ids_remove artworkId favorites :
  ids (removeFromFavorites artworkId favorites)
  = List.filter (fun i => negb (i =? artworkId)) (ids favorites).
Proof.
  unfold ids, removeFromFavorites.
  induction favorites as [|a l IH]; [done|]. simpl.
  destruct (id a =? artworkId); simpl; by rewrite IH.
Qed.

Lemma elem_of_remove a artworkId favorites :
  a ∈ removeFromFavorites artworkId favorites <-> a ∈ favorites ∧ id a ≠ artworkId.
Proof.
  unfold removeFromFavorites. rewrite !list_elem_of_In, filter_In.
  rewrite negb_true_iff, Z.eqb_neq. done.
Qed.

Lemma remove_absent artworkId favorites :
  isFavorite artworkId favorites = false ->
  removeFromFavorites artworkId favorites = favorites.
Proof.
  unfold isFavorite, removeFromFavorites.
  induction favorites as [|a l IH]; [done|]. simpl.
  intros [Ha Hl]%orb_false_iff. rewrite Ha. simpl. by rewrite IH.
Qed.

Lemma NoDup_filter_bool {A} (f : A -> bool) (l : list A) :
  NoDup l -> NoDup (List.filter f l).
Proof.
  induction 1 as [|x l Hx Hl IH]; simpl; [constructor|].
  destruct (f x); [|done]. constructor; [|done].
  rewrite list_elem_of_In, filter_In, <- list_elem_of_In. tauto.
Qed.

Lemma perform_guarded_NoDup op favorites :
  NoDup (ids favorites) ->
  guarded [op] favorites = true ->
  NoDup (ids (perform op favorites)).
Proof.
  intros Hnd Hg. destruct op as [a|i]; simpl in *.
  - rewrite ids_add. apply NoDup_app. split_and!; [done| |apply NoDup_singleton].
    intros x Hx ->%list_elem_of_singleton.
    rewrite andb_true_r, negb_true_iff, isFavorite_false in Hg. done.
  - rewrite ids_remove. by apply NoDup_filter_bool.
Qed.

Lemma guarded_cons op ops favorites :
  guarded (op :: ops) favorites = true <->
  guarded [op] favorites = true ∧ guarded ops (perform op favorites) = true.
Proof. simpl. rewrite !andb_true_iff. tauto. Qed.

Lemma guarded_take n ops favorites :
  guarded ops favorites = true -> guarded (take n ops) favorites = true.
Proof.
  revert n favorites. induction ops as [|op ops IH]; intros [|n] favorites; try done.
  rewrite firstn_cons, (guarded_cons op ops), (guarded_cons op (take n ops)).
  intros [H1 H2]. auto.
Qed.

Lemma run_guarded_NoDup ops favorites :
  NoDup (ids favorites) ->
  guarded ops favorites = true ->
  NoDup (ids (run ops favorites)).
Proof.
  revert favorites. induction ops as [|op ops IH]; intros favorites Hnd; [done|].
  rewrite guarded_cons. intros [H1 H2]. simpl.
  apply IH; [by apply perform_guarded_NoDup | done].
Qed.

(** The toggle of the card and of the detail page is a guarded
    operation, so a collection built by toggles alone stays duplicate
    free. *)
Lemma handleFavoriteClick_NoDup artwork favorites :
  NoDup (ids favorites) -> NoDup (ids (handleFavoriteClick artwork favorites)).
Proof.
  intros Hnd. unfold handleFavoriteClick.
  destruct (isFavorite (id artwork) favorites) eqn:Hfav.
  - apply (perform_guarded_NoDup (Remove (id artwork))); done.
  - apply (perform_guarded_NoDup (Add artwork)); [done|]. simpl. by rewrite Hfav.
Qed.

(** C1, as stated, fails: [addToFavorites] appends without looking, so
    adding the same artwork twice to the empty collection leaves two
    entries with identifier 42. *)
Lemma duplicate_after_two_adds :
  ids (run [Add sunrise; Add sunrise] []) = [42; 42]
  ∧ ¬ NoDup (ids (run [Add sunrise; Add sunrise] [])).
Proof.
  split; [reflexivity|].
  intros Hnd. apply NoDup_cons in Hnd as [Hin _]. apply Hin. vm_compute. left.
Qed.

(** C1, amended: when every [addToFavorites(artwork)] of the sequence is
    issued while [isFavorite(artwork.id)] is false, as the card and the
    detail page do, and the starting collection (the empty one, or a
    loaded one) has no duplicate identifiers, then at no point of the
    sequence does the collection hold two entries with the same
    identifier. *)
Theorem favorites_unique_when_guarded ops favorites n :
  NoDup (ids favorites) ->
  guarded ops favorites = true ->
  NoDup (ids (run (take n ops) favorites)).
Proof.
  intros Hnd Hg. apply run_guarded_NoDup; [done|]. by apply guarded_take.
Qed.

Lemma favorites_unique_when_guarded_witness :
  NoDup (ids (run (take 3 [Add sunrise; Remove 42; Add sunrise; Remove 7]) [])).
Proof.
  apply (favorites_unique_when_guarded
           [Add sunrise; Remove 42; Add sunrise; Remove 7] [] 3).
  - simpl. apply NoDup_nil_2.
  - vm_compute. reflexivity.
Defined.

(** C7: [removeFromFavorites(id)] keeps exactly the entries whose
    identifier differs from [id], in their order; afterwards no entry has
    identifier [id]; and when no entry had it the collection is the same
    as before.  The operation is a total function: there is no error
    case. *)
Theorem removeFromFavorites_spec artworkId favorites :
  (∀ a, a ∈ removeFromFavorites artworkId favorites
        ↔ a ∈ favorites ∧ id a ≠ artworkId)
  ∧ sublist (removeFromFavorites artworkId favorites) favorites
  ∧ (artworkId ∉ ids (removeFromFavorites artworkId favorites))
  ∧ (artworkId ∉ ids favorites ->
     removeFromFavorites artworkId favorites = favorites).
Proof.
  split_and!.
  - intros a. apply elem_of_remove.
  - unfold removeFromFavorites. induction favorites as [|a l IH]; simpl; [done|].
    destruct (negb _); by constructor.
  - unfold ids. rewrite list_elem_of_fmap. intros (a & -> & Ha).
    apply elem_of_remove in Ha. tauto.
  - intros Hnot. apply remove_absent. by apply isFavorite_false.
Qed.

Lemma removeFromFavorites_spec_witness :
  removeFromFavorites 7 [sunrise] = [sunrise].
Proof.
  apply (removeFromFavorites_spec 7 [sunrise]).
  vm_compute. intros Hin. apply list_elem_of_singleton in Hin. discriminate Hin.
Defined.

(** C8: in the collection that [addToFavorites(artwork)] produces,
    [isFavorite(artwork.id)] is true, and in the collection that
    [removeFromFavorites(id)] produces, [isFavorite(id)] is false. *)
Theorem isFavorite_after_mutation favorites artwork artworkId :
  isFavorite (id artwork) (addToFavorites artwork favorites) = true
  ∧ isFavorite artworkId (removeFromFavorites artworkId favorites) = false.
Proof.
  split.
  - unfold isFavorite, addToFavorites. rewrite existsb_app. simpl.
    rewrite Z.eqb_refl. by rewrite orb_true_r.
  - apply isFavorite_false. unfold ids. rewrite list_elem_of_fmap.
    intros (a & -> & Ha). apply elem_of_remove in Ha. tauto.
Qed.

End FavoritesFacts.

(** * Properties of the gallery fetch controller *)

Module GalleryFacts.

Lemma withImages_all records : pictured_only (withImages records).
Proof.
  unfold withImages. apply Forall_forall. intros a Ha.
  apply list_elem_of_In, filter_In in Ha. tauto.
Qed.

Lemma withImages_id records :
  pictured_only records -> withImages records = records.
Proof.
  unfold withImages. induction 1 as [|a l Ha Hl IH]; simpl; [done|].
  by rewrite Ha, IH.
Qed.

(** C3: after a successful fetch the flag [hasMore] is
    [current_page < total_pages] of the response, in each of the three
    versions; it is true for page 2 of 5 and false for page 5 of 5. *)
Theorem hasMore_after_success
    (response : ApiResponse) (records : list Artwork) (t l o : Z)
    (r1 : GalleryV1.Request) (s1 : GalleryV1.State)
    (r2 : GalleryV2.Request) (s2 : GalleryV2.State)
    (r3 : GalleryV3.Request) (s3 : GalleryV3.State) :
  let two_of_five := mkApiResponse records (mkPagination t l o 5 2) in
  let five_of_five := mkApiResponse records (mkPagination t l o 5 5) in
  (GalleryV1.hasMore (GalleryV1.fetchArtworks_settle r1 (Success response) s1)
     = (current_page (pagination response) <? total_pages (pagination response))
   ∧ GalleryV2.hasMore (GalleryV2.fetchArtworks_settle r2 (Success response) s2)
     = (current_page (pagination response) <? total_pages (pagination response))
   ∧ GalleryV3.hasMore (GalleryV3.fetchArtworks_settle r3 (Success response) s3)
     = (current_page (pagination response) <? total_pages (pagination response)))
  ∧ (GalleryV1.hasMore (GalleryV1.fetchArtworks_settle r1 (Success two_of_five) s1) = true
     ∧ GalleryV2.hasMore (GalleryV2.fetchArtworks_settle r2 (Success two_of_five) s2) = true
     ∧ GalleryV3.hasMore (GalleryV3.fetchArtworks_settle r3 (Success two_of_five) s3) = true)
  ∧ (GalleryV1.hasMore (GalleryV1.fetchArtworks_settle r1 (Success five_of_five) s1) = false
     ∧ GalleryV2.hasMore (GalleryV2.fetchArtworks_settle r2 (Success five_of_five) s2) = false
     ∧ GalleryV3.hasMore (GalleryV3.fetchArtworks_settle r3 (Success five_of_five) s3) = false).
Proof.
  intros two_of_five five_of_five. split_and!; reflexivity.
Qed.

(** C2, as stated, fails: in the third version a failed request for
    page 1 empties a result list that held an artwork. *)
Lemma first_page_failure_clears :
  GalleryV3.artworks showing_sunrise = [sunrise]
  ∧ GalleryV3.artworks
      (GalleryV3.fetchArtworks_settle (GalleryV3.mkRequest 1 EmptyString)
         (Failed network_down) showing_sunrise) = [].
Proof. split; reflexivity. Qed.

(** C2, amended: a failed fetch leaves the result list unchanged in the
    first and second versions, and in the third version when the request
    was not for page 1 (there a page-1 failure empties the list).  The
    first version records the failure's message in [error], and a
    non-success status then shows the error view; the second and third
    versions keep no error state, a failure changes nothing but
    [loading] (and, in the third, the list as said). *)
Theorem fetch_failure
    (f : Failure) (status : Z) (statusText : string)
    (r1 : GalleryV1.Request) (s1 : GalleryV1.State)
    (r2 : GalleryV2.Request) (s2 : GalleryV2.State)
    (r3 : GalleryV3.Request) (s3 : GalleryV3.State) :
  (GalleryV1.artworks (GalleryV1.fetchArtworks_settle r1 (Failed f) s1)
     = GalleryV1.artworks s1
   ∧ GalleryV1.error (GalleryV1.fetchArtworks_settle r1 (Failed f) s1)
     = GalleryV1.errorMessage (GalleryV1.thrown f)
   ∧ GalleryV1.view
       (GalleryV1.fetchArtworks_settle r1 (Failed (NotOk status statusText)) s1)
     = GalleryV1.ErrorView)
  ∧ GalleryV2.fetchArtworks_settle r2 (Failed f) s2 = GalleryV2.setLoading false s2
  ∧ GalleryV3.artworks (GalleryV3.fetchArtworks_settle r3 (Failed f) s3)
    = (if GalleryV3.pageNum r3 =? 1 then [] else GalleryV3.artworks s3)
  ∧ GalleryV3.setArtworks (fun _ => GalleryV3.artworks s3)
      (GalleryV3.fetchArtworks_settle r3 (Failed f) s3)
    = GalleryV3.setLoading false s3.
Proof.
  split_and!; try reflexivity.
  - unfold GalleryV3.fetchArtworks_settle. by destruct (GalleryV3.pageNum r3 =? 1).
  - unfold GalleryV3.fetchArtworks_settle. by destruct (GalleryV3.pageNum r3 =? 1).
Qed.

(** C5, as stated, fails: in the second version a page-1 response of
    twelve records, one of them without an image reference, gives a
    result list of eleven entries. *)
Lemma first_page_of_twelve_gives_eleven :
  length eleven_pictured = 12%nat
  ∧ length (GalleryV2.artworks
              (GalleryV2.fetchArtworks_settle (GalleryV2.mkRequest 1 "monet")
                 (Success (page_of_three 1 eleven_pictured)) GalleryV2.initial))
    = 11%nat.
Proof. split; reflexivity. Qed.

(** C5, amended: after a successful fetch, in the first version the
    result list is the response's records when [append] is false and the
    old list followed by the response's records when [append] is true; in
    the second and third versions, which have no [append] argument, the
    merged records are those of the response that have an image
    reference, and they replace the list when the request was for page 1
    and are appended otherwise.  In the scenario, page 1 with twelve
    records (all with images) gives twelve entries and [hasMore], Load
    More requests page 2 of the same term, and its twelve records give
    twenty-four entries. *)
Theorem merge_on_success
    (response : ApiResponse)
    (r1 : GalleryV1.Request) (s1 : GalleryV1.State)
    (r2 : GalleryV2.Request) (s2 : GalleryV2.State)
    (r3 : GalleryV3.Request) (s3 : GalleryV3.State) :
  let w1 := run GalleryV1.handle GalleryV1.fetchArtworks_settle
              monet_page1_v1 GalleryV1.mounted in
  let w1' := run GalleryV1.handle GalleryV1.fetchArtworks_settle
               monet_page2_v1 GalleryV1.mounted in
  let w2 := run GalleryV2.handle GalleryV2.fetchArtworks_settle
              monet_page1_v2 GalleryV2.mounted in
  let w2' := run GalleryV2.handle GalleryV2.fetchArtworks_settle
               monet_page2_v2 GalleryV2.mounted in
  (GalleryV1.artworks (GalleryV1.fetchArtworks_settle r1 (Success response) s1)
     = (if GalleryV1.append r1
        then GalleryV1.artworks s1 ++ data response
        else data response)
   ∧ GalleryV2.artworks (GalleryV2.fetchArtworks_settle r2 (Success response) s2)
     = (if GalleryV2.pageNum r2 =? 1
        then withImages (data response)
        else GalleryV2.artworks s2 ++ withImages (data response))
   ∧ GalleryV3.artworks (GalleryV3.fetchArtworks_settle r3 (Success response) s3)
     = (if GalleryV3.pageNum r3 =? 1
        then withImages (data response)
        else GalleryV3.artworks s3 ++ withImages (data response)))
  ∧ (GalleryV1.artworks (ui w1) = twelve 1
     ∧ length (GalleryV1.artworks (ui w1)) = 12%nat
     ∧ GalleryV1.hasMore (ui w1) = true
     ∧ issued GalleryV1.handle (User GalleryV1.ClickLoadMore) w1
       = [GalleryV1.mkRequest "monet" 2 true]
     ∧ GalleryV1.artworks (ui w1') = twelve 1 ++ twelve 13
     ∧ length (GalleryV1.artworks (ui w1')) = 24%nat)
  ∧ (GalleryV2.artworks (ui w2) = twelve 1
     ∧ length (GalleryV2.artworks (ui w2)) = 12%nat
     ∧ GalleryV2.hasMore (ui w2) = true
     ∧ issued GalleryV2.handle (User GalleryV2.ClickLoadMore) w2
       = [GalleryV2.mkRequest 2 "monet"]
     ∧ GalleryV2.artworks (ui w2') = twelve 1 ++ twelve 13
     ∧ length (GalleryV2.artworks (ui w2')) = 24%nat).
Proof.
  intros w1 w1' w2 w2'. split_and!; try (vm_compute; reflexivity).
  - unfold GalleryV1.fetchArtworks_settle. by destruct (GalleryV1.append r1).
  - unfold GalleryV2.fetchArtworks_settle. by destruct (GalleryV2.pageNum r2 =? 1).
  - unfold GalleryV3.fetchArtworks_settle. by destruct (GalleryV3.pageNum r3 =? 1).
Qed.

(** An invariant of the state that every handler and every settling
    keeps holds in every world the event loop reaches. *)
Lemma run_invariant {State Request UIEvent : Type}
    (handle : UIEvent -> State -> State * list Request)
    (settle : Request -> FetchResult -> State -> State)
    (P : State -> Prop) :
  (∀ e s, P s -> P (fst (handle e s))) ->
  (∀ r result s, P s -> P (settle r result s)) ->
  ∀ events w, P (ui w) -> P (ui (run handle settle events w)).
Proof.
  intros Hh Hs events. induction events as [|ev events IH]; intros w Hw; [done|].
  simpl. apply IH. destruct ev as [e|n result]; simpl; [by apply Hh|].
  destruct (inflight w !! n); simpl; [by apply Hs | done].
Qed.

Lemma settle_pictured_v2 r result s :
  pictured_only (GalleryV2.artworks s) ->
  pictured_only (GalleryV2.artworks (GalleryV2.fetchArtworks_settle r result s)).
Proof.
  intros Hs. unfold GalleryV2.fetchArtworks_settle.
  destruct result as [response|f]; [|done].
  destruct (GalleryV2.pageNum r =? 1); simpl.
  - apply withImages_all.
  - apply Forall_app. split; [done | apply withImages_all].
Qed.

Lemma settle_pictured_v3 r result s :
  pictured_only (GalleryV3.artworks s) ->
  pictured_only (GalleryV3.artworks (GalleryV3.fetchArtworks_settle r result s)).
Proof.
  intros Hs. unfold GalleryV3.fetchArtworks_settle.
  destruct result as [response|f]; destruct (GalleryV3.pageNum r =? 1); simpl; try done.
  - apply withImages_all.
  - apply Forall_app. split; [done | apply withImages_all].
  - constructor.
Qed.

Lemma handle_artworks_v2 e s :
  GalleryV2.artworks (fst (GalleryV2.handle e s)) = GalleryV2.artworks s.
Proof.
  destruct e; simpl; try done.
  - unfold GalleryV2.typeSearch. by destruct (String.eqb value (GalleryV2.searchTerm s)).
  - unfold GalleryV2.refreshGallery. by destruct (negb _).
  - by destruct (_ && _).
Qed.

Lemma handle_artworks_v3 e s :
  GalleryV3.artworks (fst (GalleryV3.handle e s)) = GalleryV3.artworks s.
Proof.
  destruct e; simpl; try done.
  - unfold GalleryV3.typeSearch. by destruct (String.eqb value (GalleryV3.searchTerm s)).
  - by destruct (GalleryV3.retryRendered s).
  - by destruct (_ && _).
Qed.

(** The first version merges the records as they come: an entry without
    an image reference stays in the list. *)
Lemma first_version_keeps_imageless :
  GalleryV1.artworks
    (GalleryV1.fetchArtworks_settle (GalleryV1.mkRequest "monet" 1 false)
       (Success (page_of_three 1 eleven_pictured)) GalleryV1.initial)
  = eleven_pictured
  ∧ ¬ pictured_only eleven_pictured.
Proof.
  split; [reflexivity|]. unfold pictured_only. rewrite Forall_forall.
  intros H. specialize (H (artwork_of 12 "No image")). simpl in H.
  assert (false = true) as E; [|discriminate E].
  apply H. unfold eleven_pictured. apply elem_of_app. right. left.
Qed.

(** C6: in the second and third versions (the ones that filter), a
    successful fetch merges exactly the records of the response whose
    [image_id] is truthy, replacing the list for page 1 and appending
    otherwise, and in every state the gallery reaches from its mount,
    whatever the user does and however the requests settle, every entry
    of the result list has an image reference. *)
Theorem imageless_records_dropped
    (response : ApiResponse)
    (r2 : GalleryV2.Request) (s2 : GalleryV2.State)
    (r3 : GalleryV3.Request) (s3 : GalleryV3.State)
    (events2 : list (Event GalleryV2.UIEvent))
    (events3 : list (Event GalleryV3.UIEvent)) :
  (∀ a, a ∈ withImages (data response)
        ↔ a ∈ data response ∧ truthy (image_id a) = true)
  ∧ GalleryV2.artworks (GalleryV2.fetchArtworks_settle r2 (Success response) s2)
    = (if GalleryV2.pageNum r2 =? 1 then [] else GalleryV2.artworks s2)
      ++ withImages (data response)
  ∧ GalleryV3.artworks (GalleryV3.fetchArtworks_settle r3 (Success response) s3)
    = (if GalleryV3.pageNum r3 =? 1 then [] else GalleryV3.artworks s3)
      ++ withImages (data response)
  ∧ pictured_only
      (GalleryV2.artworks
         (ui (run GalleryV2.handle GalleryV2.fetchArtworks_settle events2
                GalleryV2.mounted)))
  ∧ pictured_only
      (GalleryV3.artworks
         (ui (run GalleryV3.handle GalleryV3.fetchArtworks_settle events3
                GalleryV3.mounted))).
Proof.
  split_and!.
  - intros a. unfold withImages. by rewrite !list_elem_of_In, filter_In.
  - unfold GalleryV2.fetchArtworks_settle. by destruct (GalleryV2.pageNum r2 =? 1).
  - unfold GalleryV3.fetchArtworks_settle. by destruct (GalleryV3.pageNum r3 =? 1).
  - apply (run_invariant _ _ (fun s => pictured_only (GalleryV2.artworks s))).
    + intros e s Hs. by rewrite handle_artworks_v2.
    + intros r result s. apply settle_pictured_v2.
    + constructor.
  - apply (run_invariant _ _ (fun s => pictured_only (GalleryV3.artworks s))).
    + intros e s Hs. by rewrite handle_artworks_v3.
    + intros r result s. apply settle_pictured_v3.
    + constructor.
Qed.

(** C9, as stated, fails.  In the first version the mount issues two
    requests; when the first has settled, [loading] is false again while
    the second is still in flight, and a click on Load More issues the
    request for page 2.  In the second and third versions [loadMore]
    itself issues its request with [hasMore] false and [loading] true. *)
Lemma load_more_while_in_flight :
  (inflight first_mount_request_settled = [GalleryV1.mkRequest EmptyString 1 false]
   ∧ GalleryV1.loading (ui first_mount_request_settled) = false
   ∧ issued GalleryV1.handle (User GalleryV1.ClickLoadMore) first_mount_request_settled
     = [GalleryV1.mkRequest EmptyString 2 true])
  ∧ (GalleryV2.hasMore last_page_loading_v2 = false
     ∧ GalleryV2.loading last_page_loading_v2 = true
     ∧ snd (GalleryV2.loadMore last_page_loading_v2)
       = [GalleryV2.mkRequest 4 EmptyString])
  ∧ (GalleryV3.hasMore last_page_loading_v3 = false
     ∧ GalleryV3.loading last_page_loading_v3 = true
     ∧ snd (GalleryV3.loadMore last_page_loading_v3)
       = [GalleryV3.mkRequest 4 EmptyString]).
Proof. split_and!; reflexivity. Qed.

(** C9, amended: a click on Load More issues a fetch for page
    [page + 1] of the current term (appending, in the first version)
    exactly when the button is rendered and enabled, and then [hasMore]
    is true and [loading] is false; otherwise it issues nothing.  In the
    first version [handleLoadMore] checks [hasMore && !loading] itself;
    in the second and third versions [loadMore] always issues the
    request and only the render (the button exists when the list is not
    empty and [hasMore], and is disabled while [loading]) holds it
    back.  The gate is on the [loading] flag, not on the requests in
    flight. *)
Theorem load_more_gate
    (s1 : GalleryV1.State) (s2 : GalleryV2.State) (s3 : GalleryV3.State) :
  (snd (GalleryV1.handleLoadMore s1)
     = (if GalleryV1.hasMore s1 && negb (GalleryV1.loading s1)
        then [GalleryV1.mkRequest (GalleryV1.searchTerm s1) (GalleryV1.page s1 + 1) true]
        else [])
   ∧ snd (GalleryV1.handle GalleryV1.ClickLoadMore s1)
     = (if GalleryV1.loadMoreRendered s1 && negb (GalleryV1.loading s1)
        then [GalleryV1.mkRequest (GalleryV1.searchTerm s1) (GalleryV1.page s1 + 1) true]
        else [])
   ∧ GalleryV1.loadMoreRendered s1 && negb (GalleryV1.hasMore s1) = false)
  ∧ (snd (GalleryV2.loadMore s2)
       = [GalleryV2.mkRequest (GalleryV2.page s2 + 1) (GalleryV2.searchTerm s2)]
     ∧ snd (GalleryV2.handle GalleryV2.ClickLoadMore s2)
       = (if GalleryV2.loadMoreRendered s2 && negb (GalleryV2.loading s2)
          then [GalleryV2.mkRequest (GalleryV2.page s2 + 1) (GalleryV2.searchTerm s2)]
          else [])
     ∧ GalleryV2.loadMoreRendered s2 && negb (GalleryV2.hasMore s2) = false)
  ∧ (snd (GalleryV3.loadMore s3)
       = [GalleryV3.mkRequest (GalleryV3.page s3 + 1) (GalleryV3.searchTerm s3)]
     ∧ snd (GalleryV3.handle GalleryV3.ClickLoadMore s3)
       = (if GalleryV3.loadMoreRendered s3 && negb (GalleryV3.loading s3)
          then [GalleryV3.mkRequest (GalleryV3.page s3 + 1) (GalleryV3.searchTerm s3)]
          else [])
     ∧ GalleryV3.loadMoreRendered s3 && negb (GalleryV3.hasMore s3) = false).
Proof.
  split_and!; try reflexivity.
  - unfold GalleryV1.handleLoadMore. by destruct (_ && _).
  - simpl. unfold GalleryV1.loadMoreDisabled, GalleryV1.loadMoreRendered,
      GalleryV1.handleLoadMore.
    destruct (GalleryV1.view s1), (GalleryV1.hasMore s1), (GalleryV1.loading s1); done.
  - unfold GalleryV1.loadMoreRendered.
    destruct (GalleryV1.view s1), (GalleryV1.hasMore s1); done.
  - simpl. unfold GalleryV2.loadMoreDisabled. by destruct (_ && _).
  - unfold GalleryV2.loadMoreRendered.
    destruct (0 <? _)%nat, (GalleryV2.hasMore s2); done.
  - simpl. unfold GalleryV3.loadMoreDisabled. by destruct (_ && _).
  - unfold GalleryV3.loadMoreRendered.
    destruct (0 <? _)%nat, (GalleryV3.hasMore s3); done.
Qed.

(** C10: a Load More moves the page cursor to [page + 1] when the
    request is issued; when that request fails, the cursor stays at
    [page + 1] and the result list is what it was, so the next Load More
    asks for [page + 2] and the failed page is never fetched.  This holds
    in the first version (where Load More runs only with [hasMore] and
    not [loading]), in the second, and in the third once the cursor is at
    least 1, as it is in every state the gallery reaches. *)
Theorem cursor_not_rolled_back
    (s1 : GalleryV1.State) (s2 : GalleryV2.State) (s3 : GalleryV3.State)
    (f : Failure) :
  GalleryV1.hasMore s1 = true ->
  GalleryV1.loading s1 = false ->
  1 <= GalleryV3.page s3 ->
  let issued1 := GalleryV1.handleLoadMore s1 in
  let failed1 :=
    GalleryV1.fetchArtworks_settle
      (GalleryV1.mkRequest (GalleryV1.searchTerm s1) (GalleryV1.page s1 + 1) true)
      (Failed f) (fst issued1) in
  let issued2 := GalleryV2.loadMore s2 in
  let failed2 :=
    GalleryV2.fetchArtworks_settle
      (GalleryV2.mkRequest (GalleryV2.page s2 + 1) (GalleryV2.searchTerm s2))
      (Failed f) (fst issued2) in
  let issued3 := GalleryV3.loadMore s3 in
  let failed3 :=
    GalleryV3.fetchArtworks_settle
      (GalleryV3.mkRequest (GalleryV3.page s3 + 1) (GalleryV3.searchTerm s3))
      (Failed f) (fst issued3) in
  (snd issued1
     = [GalleryV1.mkRequest (GalleryV1.searchTerm s1) (GalleryV1.page s1 + 1) true]
   ∧ GalleryV1.page (fst issued1) = GalleryV1.page s1 + 1
   ∧ GalleryV1.page failed1 = GalleryV1.page s1 + 1
   ∧ GalleryV1.artworks failed1 = GalleryV1.artworks s1
   ∧ snd (GalleryV1.handleLoadMore failed1)
     = [GalleryV1.mkRequest (GalleryV1.searchTerm s1) (GalleryV1.page s1 + 2) true])
  ∧ (snd issued2
       = [GalleryV2.mkRequest (GalleryV2.page s2 + 1) (GalleryV2.searchTerm s2)]
     ∧ GalleryV2.page (fst issued2) = GalleryV2.page s2 + 1
     ∧ GalleryV2.page failed2 = GalleryV2.page s2 + 1
     ∧ GalleryV2.artworks failed2 = GalleryV2.artworks s2
     ∧ snd (GalleryV2.loadMore failed2)
       = [GalleryV2.mkRequest (GalleryV2.page s2 + 2) (GalleryV2.searchTerm s2)])
  ∧ (snd issued3
       = [GalleryV3.mkRequest (GalleryV3.page s3 + 1) (GalleryV3.searchTerm s3)]
     ∧ GalleryV3.page (fst issued3) = GalleryV3.page s3 + 1
     ∧ GalleryV3.page failed3 = GalleryV3.page s3 + 1
     ∧ GalleryV3.artworks failed3 = GalleryV3.artworks s3
     ∧ snd (GalleryV3.loadMore failed3)
       = [GalleryV3.mkRequest (GalleryV3.page s3 + 2) (GalleryV3.searchTerm s3)]).
Proof.
  intros Hmore Hload Hpage issued1 failed1 issued2 failed2 issued3 failed3.
  subst issued1 failed1 issued2 failed2 issued3 failed3.
  unfold GalleryV1.handleLoadMore, GalleryV3.fetchArtworks_settle.
  rewrite Hmore, Hload. simpl. rewrite Hmore. simpl.
  destruct (GalleryV3.page s3 + 1 =? 1) eqn:E; [apply Z.eqb_eq in E; lia|].
  simpl. split_and!; try reflexivity; by rewrite <- Z.add_assoc.
Qed.

Lemma cursor_not_rolled_back_witness :
  GalleryV1.page
    (GalleryV1.fetchArtworks_settle (GalleryV1.mkRequest "monet" 2 true)
       (Failed network_down) (fst (GalleryV1.handleLoadMore browsing_v1))) = 2
  ∧ GalleryV2.page
      (GalleryV2.fetchArtworks_settle (GalleryV2.mkRequest 2 "monet")
         (Failed network_down) (fst (GalleryV2.loadMore browsing_v2))) = 2
  ∧ GalleryV3.artworks
      (GalleryV3.fetchArtworks_settle (GalleryV3.mkRequest 2 EmptyString)
         (Failed network_down) (fst (GalleryV3.loadMore showing_sunrise)))
    = [sunrise].
Proof.
  pose proof (cursor_not_rolled_back browsing_v1 browsing_v2 showing_sunrise
                network_down eq_refl eq_refl) as H.
  simpl in H. split_and!; apply H; lia.
Defined.

(** In the first version a failure shows the error view, whose Try Again
    fetches page 1 without resetting the cursor: after the retry the list
    holds page 1 and the next Load More asks for page 3. *)
Lemma retry_keeps_advanced_cursor :
  let w := run GalleryV1.handle GalleryV1.fetchArtworks_settle
             failed_load_more_then_retry_v1 GalleryV1.mounted in
  GalleryV1.artworks (ui w) = twelve 1
  ∧ GalleryV1.page (ui w) = 2
  ∧ issued GalleryV1.handle (User GalleryV1.ClickLoadMore) w
    = [GalleryV1.mkRequest "monet" 3 true].
Proof. vm_compute. split_and!; reflexivity. Qed.

(** The cursor is at least 1 in every state a gallery reaches, so a Load
    More never asks for page 1 and its records are always appended. *)
Lemma page_at_least_one_v1 events :
  1 <= GalleryV1.page
         (ui (run GalleryV1.handle GalleryV1.fetchArtworks_settle events GalleryV1.mounted)).
Proof.
  apply (run_invariant _ _ (fun s => 1 <= GalleryV1.page s)); [| |done].
  - intros e s Hs. destruct e; simpl.
    + unfold GalleryV1.handleSearchChange. by destruct (String.eqb _ _).
    + unfold GalleryV1.handleLoadMore.
      destruct (_ && _); [|done]. destruct (_ && _); simpl; [lia|done].
    + by destruct (GalleryV1.view s).
  - intros r result s Hs. unfold GalleryV1.fetchArtworks_settle.
    destruct result; [by destruct (GalleryV1.append r)|done].
Qed.

Lemma page_at_least_one_v2 events :
  1 <= GalleryV2.page
         (ui (run GalleryV2.handle GalleryV2.fetchArtworks_settle events GalleryV2.mounted)).
Proof.
  apply (run_invariant _ _ (fun s => 1 <= GalleryV2.page s)); [| |done].
  - intros e s Hs. destruct e; simpl; try done.
    + unfold GalleryV2.typeSearch. by destruct (String.eqb _ _).
    + unfold GalleryV2.refreshGallery. by destruct (negb _).
    + destruct (_ && _); simpl; [lia|done].
  - intros r result s Hs. unfold GalleryV2.fetchArtworks_settle.
    destruct result; [by destruct (GalleryV2.pageNum r =? 1)|done].
Qed.

Lemma page_at_least_one_v3 events :
  1 <= GalleryV3.page
         (ui (run GalleryV3.handle GalleryV3.fetchArtworks_settle events GalleryV3.mounted)).
Proof.
  apply (run_invariant _ _ (fun s => 1 <= GalleryV3.page s)); [| |done].
  - intros e s Hs. destruct e; simpl; try done.
    + unfold GalleryV3.typeSearch. by destruct (String.eqb _ _).
    + by destruct (GalleryV3.retryRendered s).
    + destruct (_ && _); simpl; [lia|done].
  - intros r result s Hs. unfold GalleryV3.fetchArtworks_settle.
    destruct result; by destruct (GalleryV3.pageNum r =? 1).
Qed.

End GalleryFacts.

(** * The JSON text codec round-trips *)

Module JsonTextFacts.
Import JsonText.

Lemma append_cons c s t : String c s +:+ t = String c (s +:+ t).
Proof. reflexivity. Qed.

Lemma append_assoc s t u : (s +:+ t) +:+ u = s +:+ t +:+ u.
Proof. induction s as [|c s IH]; [done|]. by rewrite !append_cons, IH. Qed.

Lemma expect_append lit s : expect lit (lit +:+ s) = Some s.
Proof.
  induction lit as [|c lit IH]; [done|].
  rewrite append_cons. simpl. by rewrite Ascii.eqb_refl.
Qed.

(** *** Numbers *)

Lemma span_number_uint d c rest :
  is_number_char c = false ->
  span_number (NilEmpty.string_of_uint d +:+ String c rest)
  = (NilEmpty.string_of_uint d, String c rest).
Proof.
  intros Hc. induction d; simpl NilEmpty.string_of_uint;
    rewrite ?append_cons; simpl span_number; rewrite ?IHd; try done.
  by rewrite Hc.
Qed.

Lemma string_of_uint_nonempty d :
  NilZero.string_of_uint d
  = NilEmpty.string_of_uint (match d with Decimal.Nil => Decimal.D0 Decimal.Nil | _ => d end).
Proof. by destruct d. Qed.

Lemma span_number_show z c rest :
  is_number_char c = false ->
  span_number (show_number z +:+ String c rest) = (show_number z, String c rest).
Proof.
  intros Hc. unfold show_number.
  destruct (Z.to_int z) as [d|d]; unfold NilZero.string_of_int;
    rewrite string_of_uint_nonempty.
  - by apply span_number_uint.
  - rewrite append_cons. change (is_number_char "-") with true.
    simpl span_number. by rewrite span_number_uint.
Qed.

Lemma int_of_show z :
  NilZero.int_of_string (show_number z) = Some (Z.to_int z).
Proof.
  unfold show_number. apply NilZero.isi.
  - destruct z as [|p|p]; simpl; try done.
    intros [= H]. by apply Unsigned.to_uint_nonnil in H.
  - destruct z as [|p|p]; simpl; try done.
    intros [= H]. by apply Unsigned.to_uint_nonnil in H.
Qed.

Lemma parse_number_show z c rest :
  is_number_char c = false ->
  parse_number (show_number z +:+ String c rest) = Some (z, String c rest).
Proof.
  intros Hc. unfold parse_number. rewrite span_number_show by done. simpl.
  rewrite int_of_show. simpl. by rewrite DecimalZ.of_to.
Qed.

(** *** Strings *)

(** One escaped character is read back as that character. *)
Lemma parse_chars_escape_char c tail :
  parse_chars (escape_char c +:+ tail)
  = r ← parse_chars tail; Some (String c (fst r), snd r).
Proof. destruct c as [[] [] [] [] [] [] [] []]; reflexivity. Qed.

Lemma parse_chars_escape s rest :
  parse_chars (escape s +:+ String dquote rest) = Some (s, rest).
Proof.
  induction s as [|c s IH]; [done|].
  simpl escape. rewrite append_assoc, parse_chars_escape_char, IH. done.
Qed.

Lemma parse_opt_print o rest : parse_opt (print_opt o +:+ rest) = Some (o, rest).
Proof.
  destruct o as [s|]; [|done].
  unfold print_opt, print_string. rewrite append_cons, append_assoc, append_cons.
  change (parse_opt (String dquote ?x)) with (r ← parse_chars x; Some (Some (fst r), snd r)).
  by rewrite parse_chars_escape.
Qed.

Lemma parse_field_print k v rest :
  parse_field k (print_field k v +:+ rest) = Some (v, rest).
Proof.
  unfold parse_field, print_field.
  replace (("," +:+ key k +:+ print_opt v) +:+ rest)
    with (("," +:+ key k) +:+ print_opt v +:+ rest) by (by rewrite !append_assoc).
  rewrite (expect_append ("," +:+ key k)). simpl. apply parse_opt_print.
Qed.

(** A printed field starts with a comma, which ends the number before
    it. *)
Lemma print_field_comma k v rest :
  print_field k v +:+ rest = String "," (key k +:+ print_opt v +:+ rest).
Proof. unfold print_field. by rewrite !append_assoc. Qed.

(** *** Records and arrays *)

Lemma parse_artwork_print a rest :
  parse_artwork (print_artwork a +:+ rest) = Some (a, rest).
Proof.
  unfold parse_artwork, print_artwork. rewrite !append_assoc.
  rewrite <- (append_assoc "{" (key "id")), (expect_append ("{" +:+ key "id")). simpl.
  rewrite print_field_comma, parse_number_show by done. simpl.
  rewrite <- print_field_comma.
  do 10 (rewrite parse_field_print; simpl).
  by destruct a.
Qed.

Lemma print_artwork_brace a : ∃ tail, print_artwork a = String "{" tail.
Proof. unfold print_artwork. eexists. by rewrite append_cons. Qed.

Lemma print_elements_brace a l : ∃ tail, print_elements a l = String "{" tail.
Proof.
  destruct (print_artwork_brace a) as [tail Htail].
  destruct l as [|b l]; simpl print_elements; rewrite Htail; eexists;
    by rewrite ?append_cons.
Qed.

Lemma parse_elements_print l : ∀ a rest fuel,
  (length l < fuel)%nat ->
  parse_elements fuel (print_elements a l +:+ String "]" rest) = Some (a :: l, rest).
Proof.
  induction l as [|b l IH]; intros a rest [|fuel] Hfuel; try (simpl in Hfuel; lia).
  - simpl. by rewrite parse_artwork_print.
  - simpl print_elements. simpl parse_elements.
    rewrite !append_assoc, parse_artwork_print. simpl.
    change (EmptyString +:+ ?x) with x.
    rewrite IH by (simpl in Hfuel; lia). done.
Qed.

Lemma length_append s t : String.length (s +:+ t) = (String.length s + String.length t)%nat.
Proof. induction s as [|c s IH]; [done|]. rewrite append_cons. simpl. by rewrite IH. Qed.

Lemma length_print_elements a l : (length l < String.length (print_elements a l))%nat.
Proof.
  revert a. induction l as [|b l IH]; intros a;
    destruct (print_artwork_brace a) as [tail Htail].
  - change (print_elements a []) with (print_artwork a). rewrite Htail. simpl. lia.
  - change (print_elements a (b :: l))
      with (print_artwork a +:+ "," +:+ print_elements b l).
    rewrite !length_append, Htail. specialize (IH b). simpl. lia.
Qed.

Lemma parse_nonempty_array text :
  parse (String "[" (String "{" text))
  = match parse_elements (String.length (String "{" text)) (String "{" text) with
    | Some (l, EmptyString) => Some l
    | _ => None
    end.
Proof. reflexivity. Qed.

(** Parsing the text of a collection gives the collection back. *)
Lemma parse_stringify l : parse (stringify l) = Some l.
Proof.
  destruct l as [|a l]; [done|].
  destruct (print_elements_brace a l) as [tail Htail].
  assert (stringify (a :: l) = String "[" (String "{" (tail +:+ "]"))) as ->.
  { unfold stringify. by rewrite Htail. }
  rewrite parse_nonempty_array.
  replace (String "{" (tail +:+ "]")) with (print_elements a l +:+ String "]" EmptyString)
    by (by rewrite Htail).
  rewrite parse_elements_print; [done|].
  rewrite length_append. pose proof (length_print_elements a l). lia.
Qed.

(** The text of a collection is never the empty string. *)
Lemma stringify_nonempty l : stringify l ≠ EmptyString.
Proof. by destruct l. Qed.

End JsonTextFacts.

(** * Persistence of the favorites *)

Section PersistenceFacts.
Variable JSON_stringify : list Artwork -> string.
Variable JSON_parse : string -> option (list Artwork).

(** What the platform guarantees for data that [JSON.stringify] can
    represent: parsing the text gives the value back, and the text of an
    array is not the empty string. *)
Hypothesis JSON_parse_stringify : ∀ l, JSON_parse (JSON_stringify l) = Some l.
Hypothesis JSON_stringify_nonempty : ∀ l, JSON_stringify l ≠ EmptyString.

Lemma saveEffect_in_sync p : in_sync JSON_stringify (saveEffect JSON_stringify p).
Proof. unfold in_sync, persisted, saveEffect. simpl. apply lookup_insert_eq. Qed.

Lemma mount_in_sync storage :
  in_sync JSON_stringify (mount JSON_stringify JSON_parse storage).
Proof. unfold mount. destruct (loadEffect _ _); apply saveEffect_in_sync. Qed.

Lemma dispatch_all_in_sync ops p :
  in_sync JSON_stringify p -> in_sync JSON_stringify (dispatch_all JSON_stringify ops p).
Proof.
  revert p. induction ops as [|op ops IH]; intros p Hp; [done|].
  simpl. apply IH. apply saveEffect_in_sync.
Qed.

(** The load effect of a later session reads the collection back. *)
Lemma loadEffect_in_sync p :
  in_sync JSON_stringify p ->
  loadEffect JSON_parse (localStorage p) = Some (favorites p).
Proof.
  unfold in_sync, persisted, loadEffect. intros ->.
  destruct (String.eqb_spec (JSON_stringify (favorites p)) EmptyString) as [E|_].
  - by apply JSON_stringify_nonempty in E.
  - simpl. by rewrite JSON_parse_stringify.
Qed.

Lemma reload_in_sync p :
  in_sync JSON_stringify p -> reload JSON_stringify JSON_parse p = p.
Proof.
  intros Hp. unfold reload, mount. rewrite (loadEffect_in_sync p Hp).
  unfold saveEffect. simpl. destruct p as [favs storage]. simpl in *. f_equal.
  rewrite insert_insert_eq. by apply insert_id.
Qed.

(** C4: after any sequence of [addToFavorites] and
    [removeFromFavorites] calls on a mounted provider, the string in
    [localStorage] parses to the in-memory collection, and a provider
    mounted afterwards on that storage ends in the same state: same
    collection, same storage. *)
Theorem persistence_round_trip (storage : gmap string string) (ops : list Favorites.Op) :
  let p := dispatch_all JSON_stringify ops (mount JSON_stringify JSON_parse storage) in
  (persisted p ≫= JSON_parse) = Some (favorites p)
  ∧ favorites (reload JSON_stringify JSON_parse p) = favorites p
  ∧ reload JSON_stringify JSON_parse p = p.
Proof.
  intros p.
  assert (in_sync JSON_stringify p) as Hp
    by apply dispatch_all_in_sync, mount_in_sync.
  split_and!.
  - rewrite Hp. simpl. apply JSON_parse_stringify.
  - by rewrite reload_in_sync.
  - by apply reload_in_sync.
Qed.

End PersistenceFacts.

Lemma persistence_round_trip_witness :
  let p := dispatch_all JsonText.stringify
             [Favorites.Add sunrise; Favorites.Add (pictured 7); Favorites.Remove 42]
             (mount JsonText.stringify JsonText.parse ∅) in
  (persisted p ≫= JsonText.parse) = Some (favorites p)
  ∧ favorites (reload JsonText.stringify JsonText.parse p) = favorites p
  ∧ reload JsonText.stringify JsonText.parse p = p.
Proof.
  apply (persistence_round_trip JsonText.stringify JsonText.parse
           JsonTextFacts.parse_stringify JsonTextFacts.stringify_nonempty).
Defined.

(** The scenarios of the specification, with the JSON text codec. *)
Lemma empty_storage_starts_empty :
  favorites (mount JsonText.stringify JsonText.parse ∅) = [].
Proof. reflexivity. Qed.

Lemma malformed_storage_starts_empty :
  favorites (mount JsonText.stringify JsonText.parse
               {[ storageKey := "[{not json" ]}) = [].
Proof. vm_compute. reflexivity. Qed.

Lemma sunrise_survives_reload :
  let p := dispatch JsonText.stringify (Favorites.Add sunrise)
             (mount JsonText.stringify JsonText.parse ∅) in
  favorites p = [sunrise]
  ∧ favorites (reload JsonText.stringify JsonText.parse p) = [sunrise].
Proof. vm_compute. split; reflexivity. Qed.

(** * Further properties of the favorites store and its callers *)

Module FavoritesMore.
Import Favorites FavoritesView.

Lemma isFavorite_add j artwork favorites :
  isFavorite j (addToFavorites artwork favorites)
  = (isFavorite j favorites || (id artwork =? j)).
Proof.
  unfold isFavorite, addToFavorites. rewrite existsb_app. simpl.
  by rewrite orb_false_r.
Qed.

Lemma isFavorite_remove j i favorites :
  isFavorite j (removeFromFavorites i favorites)
  = (isFavorite j favorites && negb (j =? i)).
Proof.
  unfold isFavorite, removeFromFavorites.
  induction favorites as [|a l IH]; [done|]. simpl.
  destruct (id a =? i) eqn:Hi; simpl; rewrite IH.
  - apply Z.eqb_eq in Hi. destruct (id a =? j) eqn:Hj; simpl; [|done].
    apply Z.eqb_eq in Hj. assert ((j =? i) = true) as -> by (apply Z.eqb_eq; lia).
    simpl. by rewrite andb_false_r.
  - destruct (id a =? j) eqn:Hj; simpl; [|done].
    apply Z.eqb_eq in Hj. apply Z.eqb_neq in Hi.
    assert ((j =? i) = false) as -> by (apply Z.eqb_neq; lia). done.
Qed.

(** Membership after a mutation: adding an artwork makes its identifier a
    favorite and changes no other identifier's answer; removing an
    identifier makes it a non-favorite and changes no other's. *)
Theorem isFavorite_frame j i artwork favorites :
  isFavorite j (addToFavorites artwork favorites)
  = (isFavorite j favorites || (id artwork =? j))
  ∧ isFavorite j (removeFromFavorites i favorites)
    = (isFavorite j favorites && negb (j =? i)).
Proof. split; [apply isFavorite_add | apply isFavorite_remove]. Qed.


(** Removals commute, and removing twice is removing once. *)
Theorem removeFromFavorites_commutes i j favorites :
  removeFromFavorites i (removeFromFavorites j favorites)
  = removeFromFavorites j (removeFromFavorites i favorites)
  ∧ removeFromFavorites i (removeFromFavorites i favorites)
    = removeFromFavorites i favorites.
Proof.
  unfold removeFromFavorites. split.
  - induction favorites as [|a l IH]; [done|]. simpl.
    destruct (id a =? j) eqn:Hj, (id a =? i) eqn:Hi; simpl;
      rewrite ?Hj, ?Hi; simpl; by rewrite IH.
  - induction favorites as [|a l IH]; [done|]. simpl.
    destruct (id a =? i) eqn:Hi; simpl; rewrite ?Hi; simpl; by rewrite IH.
Qed.

(** A heart click, on the card or on the detail page, flips the answer
    of [isFavorite] for the clicked artwork, whatever the collection
    holds, duplicates included; on the detail page without a loaded
    artwork it changes nothing. *)
Theorem heart_click_flips artwork favorites (s : ArtworkDetailPage.State) :
  isFavorite (id artwork) (handleFavoriteClick artwork favorites)
  = negb (isFavorite (id artwork) favorites)
  ∧ match ArtworkDetailPage.artwork s with
    | Some a =>
        isFavorite (id (ArtworkDetailPage.base a))
          (fst (ArtworkDetailPage.handleFavoriteClick s favorites))
        = negb (isFavorite (id (ArtworkDetailPage.base a)) favorites)
    | None => ArtworkDetailPage.handleFavoriteClick s favorites = (favorites, s)
    end.
Proof.
  assert (∀ a, isFavorite (id a) (handleFavoriteClick a favorites)
               = negb (isFavorite (id a) favorites)) as Hflip.
  { intros a. unfold handleFavoriteClick.
    destruct (isFavorite (id a) favorites) eqn:Hfav.
    - rewrite isFavorite_remove, Z.eqb_refl. simpl. by rewrite andb_false_r.
    - rewrite isFavorite_add, Z.eqb_refl. simpl. by rewrite orb_true_r. }
  split; [apply Hflip|].
  unfold ArtworkDetailPage.handleFavoriteClick.
  destruct (ArtworkDetailPage.artwork s) as [a|]; [|done].
  specialize (Hflip (ArtworkDetailPage.base a)). unfold handleFavoriteClick in Hflip.
  by destruct (isFavorite (id (ArtworkDetailPage.base a)) favorites).
Qed.


Lemma clicks_NoDup clicked : ∀ favorites,
  NoDup (ids favorites) -> NoDup (ids (clicks clicked favorites)).
Proof.
  unfold clicks. induction clicked as [|a l IH]; intros favorites Hnd; [done|].
  simpl. apply IH. by apply FavoritesFacts.handleFavoriteClick_NoDup.
Qed.

(** Whatever hearts are clicked, in whatever order, a collection without
    duplicate identifiers stays without duplicates; in particular one
    built by clicks from the empty collection. *)
Theorem heart_clicks_keep_unique clicked favorites :
  NoDup (ids favorites) ->
  NoDup (ids (clicks clicked favorites)) ∧ NoDup (ids (clicks clicked [])).
Proof.
  intros Hnd. split; apply clicks_NoDup; [done | constructor].
Qed.

Lemma heart_clicks_keep_unique_witness :
  NoDup (ids (clicks [sunrise; pictured 7; sunrise; sunrise] [pictured 7])).
Proof.
  apply (heart_clicks_keep_unique [sunrise; pictured 7; sunrise; sunrise] [pictured 7]).
  simpl. apply NoDup_singleton.
Defined.

Lemma remove_length_unique i favorites :
  NoDup (ids favorites) ->
  isFavorite i favorites = true ->
  S (length (removeFromFavorites i favorites)) = length favorites.
Proof.
  induction favorites as [|a l IH]; [done|]. simpl.
  intros [Ha Hl]%NoDup_cons. unfold removeFromFavorites. simpl.
  destruct (id a =? i) eqn:Hi; simpl.
  - intros _. apply Z.eqb_eq in Hi. subst i.
    fold (removeFromFavorites (id a) l).
    rewrite FavoritesFacts.remove_absent; [done|].
    by apply FavoritesFacts.isFavorite_false.
  - intros Hfav. f_equal. by apply IH.
Qed.

(** In a collection without duplicate identifiers a heart click changes
    the number of favorites by exactly one: one more when the artwork
    was not a favorite, one fewer when it was.  The navigation badge
    shows that number, and is absent exactly when the collection is
    empty. *)
Theorem heart_click_counts artwork favorites :
  NoDup (ids favorites) ->
  length (handleFavoriteClick artwork favorites)
  = (if isFavorite (id artwork) favorites
     then length favorites - 1
     else length favorites + 1)%nat
  ∧ badge (handleFavoriteClick artwork favorites)
    = (if isFavorite (id artwork) favorites
       then (if (length favorites =? 1)%nat then None
             else Some (length favorites - 1)%nat)
       else Some (length favorites + 1)%nat).
Proof.
  intros Hnd. unfold handleFavoriteClick, badge.
  destruct (isFavorite (id artwork) favorites) eqn:Hfav.
  - pose proof (remove_length_unique _ _ Hnd Hfav) as Hlen.
    replace (length (removeFromFavorites (id artwork) favorites))
      with (length favorites - 1)%nat by lia.
    split; [done|].
    destruct (length favorites =? 1)%nat eqn:E.
    + apply Nat.eqb_eq in E. by rewrite E.
    + apply Nat.eqb_neq in E.
      assert ((0 <? length favorites - 1)%nat = true) as -> by (apply Nat.ltb_lt; lia).
      done.
  - unfold addToFavorites. rewrite length_app. simpl. split; [done|].
    assert ((0 <? length favorites + 1)%nat = true) as -> by (apply Nat.ltb_lt; lia).
    done.
Qed.

Lemma heart_click_counts_witness :
  length (handleFavoriteClick sunrise [pictured 7; sunrise]) = 1%nat
  ∧ badge (handleFavoriteClick sunrise [pictured 7; sunrise]) = Some 1%nat.
Proof.
  apply (heart_click_counts sunrise [pictured 7; sunrise]).
  simpl. apply NoDup_cons. split; [|apply NoDup_singleton].
  intros Hin. apply list_elem_of_singleton in Hin. discriminate Hin.
Defined.

End FavoritesMore.

(** * Further properties of the persistence

    These hold for any [JSON.stringify] and [JSON.parse]. *)

Section PersistenceMore.
Variable JSON_stringify : list Artwork -> string.
Variable JSON_parse : string -> option (list Artwork).

Lemma saveEffect_other_keys k p :
  k ≠ storageKey ->
  localStorage (saveEffect JSON_stringify p) !! k = localStorage p !! k.
Proof. intros Hk. unfold saveEffect. simpl. by rewrite lookup_insert_ne. Qed.

Lemma mount_other_keys k storage :
  k ≠ storageKey ->
  localStorage (mount JSON_stringify JSON_parse storage) !! k = storage !! k.
Proof.
  intros Hk. unfold mount. destruct (loadEffect JSON_parse storage);
    rewrite ?saveEffect_other_keys by done; simpl;
    by rewrite ?lookup_insert_ne.
Qed.

Lemma dispatch_all_other_keys k ops : ∀ p,
  k ≠ storageKey ->
  localStorage (dispatch_all JSON_stringify ops p) !! k = localStorage p !! k.
Proof.
  induction ops as [|op ops IH]; intros p Hk; [done|].
  simpl. rewrite IH by done. unfold dispatch. by rewrite saveEffect_other_keys.
Qed.

Lemma dispatch_all_favorites ops : ∀ p,
  favorites (dispatch_all JSON_stringify ops p) = Favorites.run ops (favorites p).
Proof. induction ops as [|op ops IH]; intros p; [done|]. simpl. by rewrite IH. Qed.

(** When the stored entry is absent, is the empty string, or does not
    parse, the provider starts with no favorites, and the entry is
    overwritten with the text of the empty collection: the unreadable
    text is gone. *)
Theorem mount_recovers (storage : gmap string string) :
  storage !! storageKey = None
  ∨ storage !! storageKey = Some EmptyString
  ∨ (∃ text, storage !! storageKey = Some text ∧ JSON_parse text = None) ->
  favorites (mount JSON_stringify JSON_parse storage) = []
  ∧ persisted (mount JSON_stringify JSON_parse storage) = Some (JSON_stringify []).
Proof.
  intros Hbad. unfold mount, loadEffect, persisted.
  destruct Hbad as [-> | [-> | (text & -> & Hparse)]]; simpl.
  - split; [done | apply lookup_insert_eq].
  - split; [done | apply lookup_insert_eq].
  - rewrite Hparse. destruct (negb _); simpl; split; try done; apply lookup_insert_eq.
Qed.

(** When the stored entry is a non-empty text that parses, the provider
    starts with the parsed collection and rewrites the entry with that
    collection's text. *)
Theorem mount_loads (storage : gmap string string) text loaded :
  storage !! storageKey = Some text ->
  text ≠ EmptyString ->
  JSON_parse text = Some loaded ->
  favorites (mount JSON_stringify JSON_parse storage) = loaded
  ∧ persisted (mount JSON_stringify JSON_parse storage) = Some (JSON_stringify loaded).
Proof.
  intros Hget Htext Hparse. unfold mount, loadEffect, persisted. rewrite Hget.
  destruct (String.eqb_spec text EmptyString) as [E|_]; [done|].
  simpl. rewrite Hparse. simpl. split; [done | apply lookup_insert_eq].
Qed.

(** The provider writes one key only: every other entry of the storage
    is the same after the mount and any sequence of mutations. *)
Theorem other_keys_untouched (storage : gmap string string) ops k :
  k ≠ storageKey ->
  localStorage (dispatch_all JSON_stringify ops (mount JSON_stringify JSON_parse storage)) !! k
  = storage !! k.
Proof.
  intros Hk. rewrite dispatch_all_other_keys by done. by apply mount_other_keys.
Qed.

(** The provider's collection after a sequence of mutations is the
    collection the store operations compute from the mounted one, and
    the stored entry is its text: nothing is persisted late or
    partially. *)
Theorem provider_follows_store (storage : gmap string string) ops :
  let p := dispatch_all JSON_stringify ops (mount JSON_stringify JSON_parse storage) in
  favorites p
  = Favorites.run ops (favorites (mount JSON_stringify JSON_parse storage))
  ∧ persisted p = Some (JSON_stringify (favorites p)).
Proof.
  intros p. split; [apply dispatch_all_favorites|].
  apply dispatch_all_in_sync, mount_in_sync.
Qed.

End PersistenceMore.

Lemma mount_recovers_witness :
  favorites (mount JsonText.stringify JsonText.parse {[ storageKey := "[{not json" ]}) = []
  ∧ persisted (mount JsonText.stringify JsonText.parse {[ storageKey := "[{not json" ]})
    = Some (JsonText.stringify []).
Proof.
  apply (mount_recovers JsonText.stringify JsonText.parse).
  right. right. exists "[{not json". split; [apply lookup_singleton_eq | reflexivity].
Defined.

Lemma mount_loads_witness :
  favorites (mount JsonText.stringify JsonText.parse
               {[ storageKey := JsonText.stringify [sunrise] ]}) = [sunrise]
  ∧ persisted (mount JsonText.stringify JsonText.parse
                 {[ storageKey := JsonText.stringify [sunrise] ]})
    = Some (JsonText.stringify [sunrise]).
Proof.
  apply (mount_loads JsonText.stringify JsonText.parse _ (JsonText.stringify [sunrise])).
  - apply lookup_singleton_eq.
  - discriminate.
  - vm_compute. reflexivity.
Defined.

Lemma other_keys_untouched_witness :
  localStorage
    (dispatch_all JsonText.stringify [Favorites.Add sunrise]
       (mount JsonText.stringify JsonText.parse {[ "theme" := "dark" ]})) !! "theme"
  = ({[ "theme" := "dark" ]} : gmap string string) !! "theme".
Proof.
  apply (other_keys_untouched JsonText.stringify JsonText.parse).
  discriminate.
Defined.

(** * Further properties of the gallery *)

Module GalleryMore.

(** *** The event loop *)

Lemma run_app {State Request UIEvent : Type}
    (handle : UIEvent -> State -> State * list Request)
    (settle : Request -> FetchResult -> State -> State) events1 events2 w :
  run handle settle (events1 ++ events2) w
  = run handle settle events2 (run handle settle events1 w).
Proof. revert w. induction events1 as [|ev l IH]; intros w; [done|]. simpl. apply IH. Qed.

Lemma run_worlds {State Request UIEvent : Type}
    (handle : UIEvent -> State -> State * list Request)
    (settle : Request -> FetchResult -> State -> State)
    (P : World State Request -> Prop) :
  (∀ ev w, P w -> P (step handle settle ev w)) ->
  ∀ events w, P w -> P (run handle settle events w).
Proof.
  intros Hstep events. induction events as [|ev l IH]; intros w Hw; [done|].
  simpl. by apply IH, Hstep.
Qed.

(** A [loading] flag that every settling clears and that only handlers
    issuing a request can set is never true without a request in
    flight. *)
Lemma loading_needs_request {State Request UIEvent : Type}
    (handle : UIEvent -> State -> State * list Request)
    (settle : Request -> FetchResult -> State -> State)
    (flag : State -> bool) :
  (∀ e s, snd (handle e s) = [] -> fst (handle e s) = s) ->
  (∀ r result s, flag (settle r result s) = false) ->
  ∀ events w,
    (flag (ui w) = true -> inflight w ≠ []) ->
    flag (ui (run handle settle events w)) = true ->
    inflight (run handle settle events w) ≠ [].
Proof.
  intros Hquiet Hclear.
  apply (run_worlds handle settle (fun w => flag (ui w) = true -> inflight w ≠ [])).
  intros ev w Hw. destruct ev as [e|n result]; simpl.
  - destruct (snd (handle e (ui w))) as [|r reqs] eqn:Hreqs.
    + rewrite (Hquiet _ _ Hreqs), app_nil_r. done.
    + intros _ Happ. by apply app_eq_nil in Happ as [_ ?].
  - destruct (inflight w !! n); simpl; [|done].
    rewrite Hclear. done.
Qed.

Lemma quiet_v1 e s :
  snd (GalleryV1.handle e s) = [] -> fst (GalleryV1.handle e s) = s.
Proof.
  destruct e; simpl.
  - unfold GalleryV1.handleSearchChange. by destruct (String.eqb _ _).
  - unfold GalleryV1.handleLoadMore. destruct (_ && _); [|done]. by destruct (_ && _).
  - by destruct (GalleryV1.view s).
Qed.

Lemma quiet_v2 e s :
  snd (GalleryV2.handle e s) = [] -> fst (GalleryV2.handle e s) = s.
Proof.
  destruct e; simpl; try done.
  - unfold GalleryV2.typeSearch. by destruct (String.eqb _ _).
  - unfold GalleryV2.refreshGallery. by destruct (negb _).
  - by destruct (_ && _).
Qed.

Lemma quiet_v3 e s :
  snd (GalleryV3.handle e s) = [] -> fst (GalleryV3.handle e s) = s.
Proof.
  destruct e; simpl; try done.
  - unfold GalleryV3.typeSearch. by destruct (String.eqb _ _).
  - by destruct (GalleryV3.retryRendered s).
  - by destruct (_ && _).
Qed.

(** In every state a gallery reaches from its mount, in each of the
    three versions, [loading] is true only while a request is in flight:
    the spinner and the disabled Load More button cannot get stuck. *)
Theorem loading_only_while_in_flight
    (events1 : list (Event GalleryV1.UIEvent))
    (events2 : list (Event GalleryV2.UIEvent))
    (events3 : list (Event GalleryV3.UIEvent)) :
  let w1 := run GalleryV1.handle GalleryV1.fetchArtworks_settle events1 GalleryV1.mounted in
  let w2 := run GalleryV2.handle GalleryV2.fetchArtworks_settle events2 GalleryV2.mounted in
  let w3 := run GalleryV3.handle GalleryV3.fetchArtworks_settle events3 GalleryV3.mounted in
  (GalleryV1.loading (ui w1) = false ∨ inflight w1 ≠ [])
  ∧ (GalleryV2.loading (ui w2) = false ∨ inflight w2 ≠ [])
  ∧ (GalleryV3.loading (ui w3) = false ∨ inflight w3 ≠ []).
Proof.
  intros w1 w2 w3. split_and!.
  - destruct (GalleryV1.loading (ui w1)) eqn:E; [right|by left].
    revert E. apply loading_needs_request; [apply quiet_v1|done|done].
  - destruct (GalleryV2.loading (ui w2)) eqn:E; [right|by left].
    revert E. apply loading_needs_request; [apply quiet_v2|done|done].
  - destruct (GalleryV3.loading (ui w3)) eqn:E; [right|by left].
    revert E. apply loading_needs_request; [apply quiet_v3|done|done].
Qed.

(** In every state a gallery reaches from its mount, in each of the
    three versions, the page cursor is at least 1. *)
Theorem page_cursor_at_least_one
    (events1 : list (Event GalleryV1.UIEvent))
    (events2 : list (Event GalleryV2.UIEvent))
    (events3 : list (Event GalleryV3.UIEvent)) :
  1 <= GalleryV1.page
         (ui (run GalleryV1.handle GalleryV1.fetchArtworks_settle events1 GalleryV1.mounted))
  ∧ 1 <= GalleryV2.page
           (ui (run GalleryV2.handle GalleryV2.fetchArtworks_settle events2 GalleryV2.mounted))
  ∧ 1 <= GalleryV3.page
           (ui (run GalleryV3.handle GalleryV3.fetchArtworks_settle events3 GalleryV3.mounted)).
Proof.
  split_and!; [apply GalleryFacts.page_at_least_one_v1
              | apply GalleryFacts.page_at_least_one_v2
              | apply GalleryFacts.page_at_least_one_v3].
Qed.

(** No user event (typing, submitting, refreshing, retrying, Load More)
    changes the result list or the [hasMore] flag, in any version: only
    a settling request does. *)
Theorem user_events_keep_results
    (e1 : GalleryV1.UIEvent) (s1 : GalleryV1.State)
    (e2 : GalleryV2.UIEvent) (s2 : GalleryV2.State)
    (e3 : GalleryV3.UIEvent) (s3 : GalleryV3.State) :
  (GalleryV1.artworks (fst (GalleryV1.handle e1 s1)) = GalleryV1.artworks s1
   ∧ GalleryV1.hasMore (fst (GalleryV1.handle e1 s1)) = GalleryV1.hasMore s1)
  ∧ (GalleryV2.artworks (fst (GalleryV2.handle e2 s2)) = GalleryV2.artworks s2
     ∧ GalleryV2.hasMore (fst (GalleryV2.handle e2 s2)) = GalleryV2.hasMore s2)
  ∧ (GalleryV3.artworks (fst (GalleryV3.handle e3 s3)) = GalleryV3.artworks s3
     ∧ GalleryV3.hasMore (fst (GalleryV3.handle e3 s3)) = GalleryV3.hasMore s3).
Proof.
  split_and!.
  - destruct e1; simpl.
    + unfold GalleryV1.handleSearchChange. by destruct (String.eqb _ _).
    + unfold GalleryV1.handleLoadMore. destruct (_ && _); [|done]. by destruct (_ && _).
    + by destruct (GalleryV1.view s1).
  - destruct e1; simpl.
    + unfold GalleryV1.handleSearchChange. by destruct (String.eqb _ _).
    + unfold GalleryV1.handleLoadMore. destruct (_ && _); [|done]. by destruct (_ && _).
    + by destruct (GalleryV1.view s1).
  - apply GalleryFacts.handle_artworks_v2.
  - destruct e2; simpl; try done.
    + unfold GalleryV2.typeSearch. by destruct (String.eqb _ _).
    + unfold GalleryV2.refreshGallery. by destruct (negb _).
    + by destruct (_ && _).
  - apply GalleryFacts.handle_artworks_v3.
  - destruct e3; simpl; try done.
    + unfold GalleryV3.typeSearch. by destruct (String.eqb _ _).
    + by destruct (GalleryV3.retryRendered s3).
    + by destruct (_ && _).
Qed.

(** No settling request, successful or failed, changes the search term
    or the page cursor, in any version. *)
Theorem settling_keeps_term_and_cursor (result : FetchResult)
    (r1 : GalleryV1.Request) (s1 : GalleryV1.State)
    (r2 : GalleryV2.Request) (s2 : GalleryV2.State)
    (r3 : GalleryV3.Request) (s3 : GalleryV3.State) :
  (GalleryV1.searchTerm (GalleryV1.fetchArtworks_settle r1 result s1) = GalleryV1.searchTerm s1
   ∧ GalleryV1.page (GalleryV1.fetchArtworks_settle r1 result s1) = GalleryV1.page s1)
  ∧ (GalleryV2.searchTerm (GalleryV2.fetchArtworks_settle r2 result s2) = GalleryV2.searchTerm s2
     ∧ GalleryV2.page (GalleryV2.fetchArtworks_settle r2 result s2) = GalleryV2.page s2)
  ∧ (GalleryV3.searchTerm (GalleryV3.fetchArtworks_settle r3 result s3) = GalleryV3.searchTerm s3
     ∧ GalleryV3.page (GalleryV3.fetchArtworks_settle r3 result s3) = GalleryV3.page s3).
Proof.
  unfold GalleryV1.fetchArtworks_settle, GalleryV2.fetchArtworks_settle,
    GalleryV3.fetchArtworks_settle.
  destruct result; destruct (GalleryV1.append r1), (GalleryV2.pageNum r2 =? 1),
    (GalleryV3.pageNum r3 =? 1); done.
Qed.

(** *** Overlapping requests *)

(** Two user events that issue one request each, the later request
    settling first: the earlier request's continuation runs last. *)
Lemma run_overtaking {State Request UIEvent : Type}
    (handle : UIEvent -> State -> State * list Request)
    (settle : Request -> FetchResult -> State -> State)
    (e1 e2 : UIEvent) result1 result2 (w : World State Request) r1 r2 :
  snd (handle e1 (ui w)) = [r1] ->
  snd (handle e2 (fst (handle e1 (ui w)))) = [r2] ->
  run handle settle (overtaking (length (inflight w)) e1 e2 result1 result2) w
  = mkWorld
      (settle r1 result1 (settle r2 result2 (fst (handle e2 (fst (handle e1 (ui w)))))))
      (inflight w).
Proof.
  intros H1 H2. unfold overtaking. simpl. rewrite H1, H2.
  rewrite (list_lookup_middle (inflight w ++ [r1]) [] r2)
    by (rewrite length_app; simpl; lia).
  simpl.
  replace (S (length (inflight w))) with (length (inflight w ++ [r1]))
    by (rewrite length_app; simpl; lia).
  rewrite delete_middle, app_nil_r.
  rewrite (list_lookup_middle (inflight w) [] r1) by done.
  simpl. by rewrite delete_middle, app_nil_r.
Qed.

(** First version: the user types one term and then another, and the
    response for the second term arrives before the response for the
    first.  The gallery then shows the new term with the records and the
    [hasMore] of the old term's response; nothing tells responses
    apart. *)
Theorem stale_response_wins_v1
    (w : World GalleryV1.State GalleryV1.Request)
    (term1 term2 : string) (response1 response2 : ApiResponse) :
  term1 ≠ GalleryV1.searchTerm (ui w) ->
  term2 ≠ term1 ->
  let w' := run GalleryV1.handle GalleryV1.fetchArtworks_settle
              (overtaking (length (inflight w))
                 (GalleryV1.TypeSearch term1) (GalleryV1.TypeSearch term2)
                 (Success response1) (Success response2)) w in
  GalleryV1.searchTerm (ui w') = term2
  ∧ GalleryV1.artworks (ui w') = data response1
  ∧ GalleryV1.hasMore (ui w') = morePages response1
  ∧ GalleryV1.loading (ui w') = false
  ∧ inflight w' = inflight w.
Proof.
  intros Hterm1 Hterm2 w'. subst w'.
  apply String.eqb_neq in Hterm1. apply String.eqb_neq in Hterm2.
  rewrite (run_overtaking _ _ _ _ _ _ w
             (GalleryV1.mkRequest term1 1 false) (GalleryV1.mkRequest term2 1 false)).
  - simpl. unfold GalleryV1.handleSearchChange. rewrite Hterm1. simpl.
    rewrite Hterm2. done.
  - simpl. unfold GalleryV1.handleSearchChange. by rewrite Hterm1.
  - simpl. unfold GalleryV1.handleSearchChange. rewrite Hterm1. simpl.
    by rewrite Hterm2.
Qed.

Lemma stale_response_wins_v1_witness :
  let w' := run GalleryV1.handle GalleryV1.fetchArtworks_settle
              (overtaking 2 (GalleryV1.TypeSearch "mon") (GalleryV1.TypeSearch "monet")
                 (Success (page_of_three 1 (twelve 1)))
                 (Success (page_of_three 3 (twelve 25)))) GalleryV1.mounted in
  GalleryV1.searchTerm (ui w') = "monet"
  ∧ GalleryV1.artworks (ui w') = twelve 1
  ∧ GalleryV1.hasMore (ui w') = true
  ∧ GalleryV1.loading (ui w') = false
  ∧ inflight w' = inflight GalleryV1.mounted.
Proof.
  apply (stale_response_wins_v1 GalleryV1.mounted "mon" "monet"
           (page_of_three 1 (twelve 1)) (page_of_three 3 (twelve 25)));
    discriminate.
Defined.

(** Second version: the same race; the list holds the records with
    images of the old term's response. *)
Theorem stale_response_wins_v2
    (w : World GalleryV2.State GalleryV2.Request)
    (term1 term2 : string) (response1 response2 : ApiResponse) :
  term1 ≠ GalleryV2.searchTerm (ui w) ->
  term2 ≠ term1 ->
  let w' := run GalleryV2.handle GalleryV2.fetchArtworks_settle
              (overtaking (length (inflight w))
                 (GalleryV2.TypeSearch term1) (GalleryV2.TypeSearch term2)
                 (Success response1) (Success response2)) w in
  GalleryV2.searchTerm (ui w') = term2
  ∧ GalleryV2.artworks (ui w') = withImages (data response1)
  ∧ GalleryV2.hasMore (ui w') = morePages response1
  ∧ GalleryV2.loading (ui w') = false
  ∧ inflight w' = inflight w.
Proof.
  intros Hterm1 Hterm2 w'. subst w'.
  apply String.eqb_neq in Hterm1. apply String.eqb_neq in Hterm2.
  rewrite (run_overtaking _ _ _ _ _ _ w
             (GalleryV2.mkRequest 1 term1) (GalleryV2.mkRequest 1 term2)).
  - simpl. unfold GalleryV2.typeSearch. rewrite Hterm1. simpl.
    rewrite Hterm2. done.
  - simpl. unfold GalleryV2.typeSearch. by rewrite Hterm1.
  - simpl. unfold GalleryV2.typeSearch. rewrite Hterm1. simpl.
    by rewrite Hterm2.
Qed.

Lemma stale_response_wins_v2_witness :
  let w' := run GalleryV2.handle GalleryV2.fetchArtworks_settle
              (overtaking 1 (GalleryV2.TypeSearch "mon") (GalleryV2.TypeSearch "monet")
                 (Success (page_of_three 1 eleven_pictured))
                 (Success (page_of_three 3 (twelve 25)))) GalleryV2.mounted in
  GalleryV2.searchTerm (ui w') = "monet"
  ∧ GalleryV2.artworks (ui w') = withImages eleven_pictured
  ∧ GalleryV2.hasMore (ui w') = true
  ∧ GalleryV2.loading (ui w') = false
  ∧ inflight w' = inflight GalleryV2.mounted.
Proof.
  apply (stale_response_wins_v2 GalleryV2.mounted "mon" "monet"
           (page_of_three 1 eleven_pictured) (page_of_three 3 (twelve 25)));
    discriminate.
Defined.

(** *** Paging *)

Lemma length_zero_false {A} (l : list A) : l ≠ [] -> (length l =? 0)%nat = false.
Proof. destruct l; [done|]. by intros _. Qed.

Lemma length_pos_true {A} (l : list A) : l ≠ [] -> (0 <? length l)%nat = true.
Proof. destruct l; [done|]. by intros _. Qed.

(** One Load More and its successful response, first version. *)
Lemma load_more_cycle_v1 s response :
  GalleryV1.error s = EmptyString ->
  GalleryV1.artworks s ≠ [] ->
  GalleryV1.hasMore s = true ->
  GalleryV1.loading s = false ->
  run GalleryV1.handle GalleryV1.fetchArtworks_settle
    [User GalleryV1.ClickLoadMore; Settles 0 (Success response)] (mkWorld s [])
  = mkWorld
      (GalleryV1.mkState (GalleryV1.artworks s ++ data response) false EmptyString
         (GalleryV1.searchTerm s) (GalleryV1.page s + 1) (morePages response)) [].
Proof.
  intros Herr Hart Hmore Hload. simpl.
  unfold GalleryV1.loadMoreRendered, GalleryV1.loadMoreDisabled, GalleryV1.view,
    GalleryV1.handleLoadMore.
  rewrite Herr, Hload, Hmore, (length_zero_false _ Hart). simpl.
  reflexivity.
Qed.

(** First version, nothing else in flight, the grid showing with
    [hasMore]: Load More clicked once per response, each response but
    the last reporting more pages, leaves the old list followed by the
    records of all the responses in order, the cursor advanced by the
    number of responses, and the last response's [hasMore]. *)
Theorem load_more_accumulates_v1 (responses : list ApiResponse) : ∀ s last,
  GalleryV1.error s = EmptyString ->
  GalleryV1.artworks s ≠ [] ->
  GalleryV1.hasMore s = true ->
  GalleryV1.loading s = false ->
  Forall (fun response => morePages response = true) responses ->
  run GalleryV1.handle GalleryV1.fetchArtworks_settle
    (loadMoreCycles GalleryV1.ClickLoadMore (responses ++ [last])) (mkWorld s [])
  = mkWorld
      (GalleryV1.mkState
         (GalleryV1.artworks s ++ concat (map data responses) ++ data last)
         false EmptyString (GalleryV1.searchTerm s)
         (GalleryV1.page s + Z.of_nat (length responses) + 1)
         (morePages last)) [].
Proof.
  induction responses as [|response rest IH]; intros s last Herr Hart Hmore Hload Hall.
  - change (loadMoreCycles GalleryV1.ClickLoadMore ([] ++ [last]))
      with [User GalleryV1.ClickLoadMore; Settles 0 (Success last)].
    rewrite (load_more_cycle_v1 s last) by done. simpl. by rewrite Z.add_0_r.
  - apply Forall_cons in Hall as [Hfirst Hrest].
    change (loadMoreCycles GalleryV1.ClickLoadMore ((response :: rest) ++ [last]))
      with ([User GalleryV1.ClickLoadMore; Settles 0 (Success response)]
            ++ loadMoreCycles GalleryV1.ClickLoadMore (rest ++ [last])).
    rewrite run_app, (load_more_cycle_v1 s response) by done.
    rewrite IH; simpl; try done.
    + rewrite <- !app_assoc. do 2 f_equal. lia.
    + intros [Hnil _]%app_eq_nil. done.
Qed.

Lemma load_more_accumulates_v1_witness :
  run GalleryV1.handle GalleryV1.fetchArtworks_settle
    (loadMoreCycles GalleryV1.ClickLoadMore
       ([page_of_three 2 (twelve 13)] ++ [page_of_three 3 (twelve 25)]))
    (mkWorld browsing_v1 [])
  = mkWorld
      (GalleryV1.mkState
         (twelve 1 ++ concat (map data [page_of_three 2 (twelve 13)]) ++ twelve 25)
         false EmptyString "monet" (1 + Z.of_nat 1 + 1) false) [].
Proof.
  apply (load_more_accumulates_v1 [page_of_three 2 (twelve 13)] browsing_v1
           (page_of_three 3 (twelve 25))); try reflexivity.
  - discriminate.
  - repeat constructor.
Defined.

(** One Load More and its successful response, second version. *)
Lemma load_more_cycle_v2 s response :
  1 <= GalleryV2.page s ->
  GalleryV2.artworks s ≠ [] ->
  GalleryV2.hasMore s = true ->
  GalleryV2.loading s = false ->
  run GalleryV2.handle GalleryV2.fetchArtworks_settle
    [User GalleryV2.ClickLoadMore; Settles 0 (Success response)] (mkWorld s [])
  = mkWorld
      (GalleryV2.mkState (GalleryV2.artworks s ++ withImages (data response)) false
         (GalleryV2.searchTerm s) (GalleryV2.page s + 1) (morePages response)) [].
Proof.
  intros Hpage Hart Hmore Hload. simpl.
  unfold GalleryV2.loadMoreRendered, GalleryV2.loadMoreDisabled.
  rewrite Hload, Hmore, (length_pos_true _ Hart). simpl.
  unfold GalleryV2.fetchArtworks_settle. simpl.
  destruct (GalleryV2.page s + 1 =? 1) eqn:E; [apply Z.eqb_eq in E; lia|]. done.
Qed.

(** Second version, under the same conditions and a cursor of at least
    1: the list grows by the records with images of each response, in
    order, and the cursor advances by the number of responses, also past
    responses that contribute no record. *)
Theorem load_more_accumulates_v2 (responses : list ApiResponse) : ∀ s last,
  1 <= GalleryV2.page s ->
  GalleryV2.artworks s ≠ [] ->
  GalleryV2.hasMore s = true ->
  GalleryV2.loading s = false ->
  Forall (fun response => morePages response = true) responses ->
  run GalleryV2.handle GalleryV2.fetchArtworks_settle
    (loadMoreCycles GalleryV2.ClickLoadMore (responses ++ [last])) (mkWorld s [])
  = mkWorld
      (GalleryV2.mkState
         (GalleryV2.artworks s
          ++ concat (map (fun response => withImages (data response)) responses)
          ++ withImages (data last))
         false (GalleryV2.searchTerm s)
         (GalleryV2.page s + Z.of_nat (length responses) + 1)
         (morePages last)) [].
Proof.
  induction responses as [|response rest IH]; intros s last Hpage Hart Hmore Hload Hall.
  - change (loadMoreCycles GalleryV2.ClickLoadMore ([] ++ [last]))
      with [User GalleryV2.ClickLoadMore; Settles 0 (Success last)].
    rewrite (load_more_cycle_v2 s last) by done. simpl. by rewrite Z.add_0_r.
  - apply Forall_cons in Hall as [Hfirst Hrest].
    change (loadMoreCycles GalleryV2.ClickLoadMore ((response :: rest) ++ [last]))
      with ([User GalleryV2.ClickLoadMore; Settles 0 (Success response)]
            ++ loadMoreCycles GalleryV2.ClickLoadMore (rest ++ [last])).
    rewrite run_app, (load_more_cycle_v2 s response) by done.
    rewrite IH; simpl; try done; try lia.
    + rewrite <- !app_assoc. do 2 f_equal. lia.
    + intros [Hnil _]%app_eq_nil. done.
Qed.

Lemma load_more_accumulates_v2_witness :
  run GalleryV2.handle GalleryV2.fetchArtworks_settle
    (loadMoreCycles GalleryV2.ClickLoadMore
       ([page_of_three 2 eleven_pictured] ++ [page_of_three 3 (twelve 25)]))
    (mkWorld browsing_v2 [])
  = mkWorld
      (GalleryV2.mkState
         (twelve 1
          ++ concat (map (fun response => withImages (data response))
                       [page_of_three 2 eleven_pictured])
          ++ withImages (twelve 25))
         false "monet" (1 + Z.of_nat 1 + 1) false) [].
Proof.
  apply (load_more_accumulates_v2 [page_of_three 2 eleven_pictured] browsing_v2
           (page_of_three 3 (twelve 25))); try reflexivity.
  - discriminate.
  - repeat constructor.
Defined.

(** *** Searching *)

(** A new search term and its successful response, with nothing else in
    flight, replace whatever the gallery held: the list is the
    response's records (those with images in the second and third
    versions), the cursor is 1, the flag is the response's, and in the
    first version the error is cleared. *)
Theorem new_search_replaces (term : string) (response : ApiResponse)
    (s1 : GalleryV1.State) (s2 : GalleryV2.State) (s3 : GalleryV3.State) :
  term ≠ GalleryV1.searchTerm s1 ->
  term ≠ GalleryV2.searchTerm s2 ->
  term ≠ GalleryV3.searchTerm s3 ->
  run GalleryV1.handle GalleryV1.fetchArtworks_settle
    [User (GalleryV1.TypeSearch term); Settles 0 (Success response)] (mkWorld s1 [])
  = mkWorld (GalleryV1.mkState (data response) false EmptyString term 1
               (morePages response)) []
  ∧ run GalleryV2.handle GalleryV2.fetchArtworks_settle
      [User (GalleryV2.TypeSearch term); Settles 0 (Success response)] (mkWorld s2 [])
    = mkWorld (GalleryV2.mkState (withImages (data response)) false term 1
                 (morePages response)) []
  ∧ run GalleryV3.handle GalleryV3.fetchArtworks_settle
      [User (GalleryV3.TypeSearch term); Settles 0 (Success response)] (mkWorld s3 [])
    = mkWorld (GalleryV3.mkState (withImages (data response)) false term 1
                 (morePages response)) [].
Proof.
  intros H1%String.eqb_neq H2%String.eqb_neq H3%String.eqb_neq. simpl.
  unfold GalleryV1.handleSearchChange, GalleryV2.typeSearch, GalleryV3.typeSearch.
  rewrite H1, H2, H3. done.
Qed.

Lemma new_search_replaces_witness :
  run GalleryV1.handle GalleryV1.fetchArtworks_settle
    [User (GalleryV1.TypeSearch "degas"); Settles 0 (Success (page_of_three 1 (twelve 50)))]
    (mkWorld failed_v1 [])
  = mkWorld (GalleryV1.mkState (twelve 50) false EmptyString "degas" 1 true) [].
Proof.
  apply (new_search_replaces "degas" (page_of_three 1 (twelve 50))
           failed_v1 browsing_v2 searching_v3); discriminate.
Defined.

(** A new search term whose request fails, with nothing else in flight:
    the first version keeps the old list under the failure's message,
    the second keeps the old list under the new term with no sign of the
    failure, the third empties the list.  All three leave the new term
    and cursor 1. *)
Theorem new_search_fails (term : string) (f : Failure)
    (s1 : GalleryV1.State) (s2 : GalleryV2.State) (s3 : GalleryV3.State) :
  term ≠ GalleryV1.searchTerm s1 ->
  term ≠ GalleryV2.searchTerm s2 ->
  term ≠ GalleryV3.searchTerm s3 ->
  run GalleryV1.handle GalleryV1.fetchArtworks_settle
    [User (GalleryV1.TypeSearch term); Settles 0 (Failed f)] (mkWorld s1 [])
  = mkWorld (GalleryV1.mkState (GalleryV1.artworks s1) false
               (GalleryV1.errorMessage (GalleryV1.thrown f)) term 1
               (GalleryV1.hasMore s1)) []
  ∧ run GalleryV2.handle GalleryV2.fetchArtworks_settle
      [User (GalleryV2.TypeSearch term); Settles 0 (Failed f)] (mkWorld s2 [])
    = mkWorld (GalleryV2.mkState (GalleryV2.artworks s2) false term 1
                 (GalleryV2.hasMore s2)) []
  ∧ run GalleryV3.handle GalleryV3.fetchArtworks_settle
      [User (GalleryV3.TypeSearch term); Settles 0 (Failed f)] (mkWorld s3 [])
    = mkWorld (GalleryV3.mkState [] false term 1 (GalleryV3.hasMore s3)) [].
Proof.
  intros H1%String.eqb_neq H2%String.eqb_neq H3%String.eqb_neq. simpl.
  unfold GalleryV1.handleSearchChange, GalleryV2.typeSearch, GalleryV3.typeSearch.
  rewrite H1, H2, H3. done.
Qed.

Lemma new_search_fails_witness :
  run GalleryV2.handle GalleryV2.fetchArtworks_settle
    [User (GalleryV2.TypeSearch "degas"); Settles 0 (Failed network_down)]
    (mkWorld browsing_v2 [])
  = mkWorld (GalleryV2.mkState (twelve 1) false "degas" 1 true) [].
Proof.
  apply (new_search_fails "degas" network_down failed_v1 browsing_v2 searching_v3);
    discriminate.
Defined.

(** *** Failures on screen *)

(** First version, while an error message is set: the error view
    replaces everything, Load More does nothing, and Try Again issues a
    non-appending request for page 1 of the current term, clears the
    message and leaves the page cursor where it was. *)
Theorem error_view_v1 (s : GalleryV1.State) :
  GalleryV1.error s ≠ EmptyString ->
  GalleryV1.view s = GalleryV1.ErrorView
  ∧ GalleryV1.handle GalleryV1.ClickLoadMore s = (s, [])
  ∧ snd (GalleryV1.handle GalleryV1.ClickTryAgain s)
    = [GalleryV1.mkRequest (GalleryV1.searchTerm s) 1 false]
  ∧ GalleryV1.error (fst (GalleryV1.handle GalleryV1.ClickTryAgain s)) = EmptyString
  ∧ GalleryV1.view (fst (GalleryV1.handle GalleryV1.ClickTryAgain s)) ≠ GalleryV1.ErrorView
  ∧ GalleryV1.page (fst (GalleryV1.handle GalleryV1.ClickTryAgain s)) = GalleryV1.page s.
Proof.
  intros Herr%String.eqb_neq.
  assert (GalleryV1.view s = GalleryV1.ErrorView) as Hview.
  { unfold GalleryV1.view. by rewrite Herr. }
  simpl. unfold GalleryV1.loadMoreRendered. rewrite Hview. simpl.
  split_and!; try done.
  unfold GalleryV1.view. simpl. by repeat case_match.
Qed.

Lemma error_view_v1_witness :
  snd (GalleryV1.handle GalleryV1.ClickTryAgain failed_v1)
  = [GalleryV1.mkRequest "monet" 1 false]
  ∧ GalleryV1.page (fst (GalleryV1.handle GalleryV1.ClickTryAgain failed_v1)) = 2.
Proof.
  pose proof (error_view_v1 failed_v1) as H.
  split; apply H; discriminate.
Defined.

(** Third version: after a failed request for page 1 the Retry button
    is rendered and Load More is not, and Retry asks for page 1 of the
    unfiltered collection whatever the search term is, which stays in
    the input. *)
Theorem first_page_failure_offers_retry_v3
    (r : GalleryV3.Request) (f : Failure) (s : GalleryV3.State) :
  GalleryV3.pageNum r = 1 ->
  let s' := GalleryV3.fetchArtworks_settle r (Failed f) s in
  GalleryV3.retryRendered s' = true
  ∧ GalleryV3.loadMoreRendered s' = false
  ∧ snd (GalleryV3.handle GalleryV3.ClickRetry s') = [GalleryV3.mkRequest 1 EmptyString]
  ∧ GalleryV3.searchTerm (fst (GalleryV3.handle GalleryV3.ClickRetry s'))
    = GalleryV3.searchTerm s.
Proof.
  intros Hpage s'. subst s'. unfold GalleryV3.fetchArtworks_settle.
  rewrite Hpage. simpl. done.
Qed.

Lemma first_page_failure_offers_retry_v3_witness :
  snd (GalleryV3.handle GalleryV3.ClickRetry
         (GalleryV3.fetchArtworks_settle (GalleryV3.mkRequest 1 "monet")
            (Failed network_down) searching_v3))
  = [GalleryV3.mkRequest 1 EmptyString]
  ∧ GalleryV3.searchTerm
      (fst (GalleryV3.handle GalleryV3.ClickRetry
              (GalleryV3.fetchArtworks_settle (GalleryV3.mkRequest 1 "monet")
                 (Failed network_down) searching_v3))) = "monet".
Proof.
  pose proof (first_page_failure_offers_retry_v3 (GalleryV3.mkRequest 1 "monet")
                network_down searching_v3 eq_refl) as H.
  split; apply H.
Defined.

End GalleryMore.

(** * The detail page *)

Module ArtworkDetailFacts.
Import ArtworkDetailPage.

(** A route identifier starts a request and shows the spinner.  When the
    request fails, one error toast is raised and the page shows what it
    held before: Not Found on a first load, the previously loaded
    artwork after a navigation from another artwork.  When it succeeds,
    the page shows the loaded artwork. *)
Theorem detail_fetch_outcomes (s : State) (routeId : string) (f : Failure)
    (a : ArtworkDetail) :
  routeId ≠ EmptyString ->
  let started := idEffect (Some routeId) s in
  let failed := fetchArtworkDetail_settle (LoadFailed f) (fst started) in
  let loaded := fetchArtworkDetail_settle (Loaded a) (fst started) in
  snd started = [routeId]
  ∧ view (fst started) = Spinner
  ∧ artwork failed = artwork s
  ∧ view failed = match artwork s with Some old => Detail old | None => NotFound end
  ∧ toasts failed = toasts s ++ ["Failed to load artwork details"]
  ∧ view loaded = Detail a
  ∧ toasts loaded = toasts s.
Proof.
  intros Hid%String.eqb_neq started failed loaded. subst started failed loaded.
  unfold idEffect. simpl. rewrite Hid. simpl. done.
Qed.

Lemma detail_fetch_outcomes_witness :
  view (fetchArtworkDetail_settle (LoadFailed network_down)
          (fst (idEffect (Some "27992") initial))) = NotFound.
Proof.
  pose proof (detail_fetch_outcomes initial "27992" network_down
                (mkArtworkDetail sunrise None None None None None None None None)) as H.
  apply H. discriminate.
Defined.


End ArtworkDetailFacts.
